(** * capstone-auth: role-gated credential repository

    A shallow embedding of [backend/server.js] and
    [backend/middleware/auth.js], and of the two views of the frontend
    that talk to them.

    - The two Mongoose collections ([User], [OU]) are lists of documents,
      in the order the store returns them; [findOne]/[findById]/[.id()]
      return the first matching document and [save] rewrites the first
      document that carries the saved document's [_id].
    - An [ObjectId] is twelve bytes, written as 24 hexadecimal digits.
      Every query by id first casts the text it is given: the hexadecimal
      text of an id in either letter case is read as that id, and a text
      that cannot be cast makes the query throw, which the handler's
      [catch] answers with 500. [String(id)] is the lower-case text.
    - [req.headers] and [req.body] are JS objects used as maps: finite
      maps from field name to a string value; an absent key is
      [undefined].
    - The token and hashing primitives ([jwt.sign], [jwt.verify],
      [bcrypt.hash], [bcrypt.compare]) are section variables; [jwt.sign]
      also reads the clock, since it stamps the token.
    - Every handler is a function from the store and the request to the
      new store and the response written. *)

From Stdlib Require Import String Ascii List Bool Arith Lia.
From stdpp Require Import base option strings gmap.
Import ListNotations.

Open Scope string_scope.
Set Warnings "-register-all".

(** ** JSON payloads and responses *)

Inductive Json : Type :=
| JNull
| JBool (b : bool)
| JStr (s : string)
| JArr (items : list Json)
| JObj (fields : list (string * Json)).

Record Response : Type := mkResponse { status : nat; payload : Json }.

(** [res.status(code).json({ error: msg })] *)
Definition json_error (code : nat) (msg : string) : Response :=
  mkResponse code (JObj [("error", JStr msg)]).

(** First value stored under [k] in an object, [undefined] otherwise. *)
Fixpoint obj_get (k : string) (fields : list (string * Json)) : option Json :=
  match fields with
  | [] => None
  | (k', v) :: rest => if String.eqb k k' then Some v else obj_get k rest
  end.

Definition field (k : string) (j : Json) : option Json :=
  match j with
  | JObj fields => obj_get k fields
  | _ => None
  end.

Definition obj_keys (j : Json) : list string :=
  match j with
  | JObj fields => map fst fields
  | _ => []
  end.

(** Does the key [k] occur anywhere inside the payload? *)
Fixpoint mentions_key (k : string) (j : Json) : bool :=
  match j with
  | JArr items => existsb (mentions_key k) items
  | JObj fields =>
      existsb (fun kv => String.eqb k (fst kv) || mentions_key k (snd kv)) fields
  | _ => false
  end.

(** ** ObjectIds *)

Inductive hexdigit : Type :=
| x0 | x1 | x2 | x3 | x4 | x5 | x6 | x7
| x8 | x9 | xa | xb | xc | xd | xe | xf.

(** The digit as [toString()] writes it. *)
Definition hexdigit_char (d : hexdigit) : ascii :=
  match d with
  | x0 => "0" | x1 => "1" | x2 => "2" | x3 => "3"
  | x4 => "4" | x5 => "5" | x6 => "6" | x7 => "7"
  | x8 => "8" | x9 => "9" | xa => "a" | xb => "b"
  | xc => "c" | xd => "d" | xe => "e" | xf => "f"
  end%char.

(** The digit a character stands for; letters in either case. *)
Definition char_hexdigit (c : ascii) : option hexdigit :=
  match c with
  | "0" => Some x0 | "1" => Some x1 | "2" => Some x2 | "3" => Some x3
  | "4" => Some x4 | "5" => Some x5 | "6" => Some x6 | "7" => Some x7
  | "8" => Some x8 | "9" => Some x9
  | "a" | "A" => Some xa | "b" | "B" => Some xb | "c" | "C" => Some xc
  | "d" | "D" => Some xd | "e" | "E" => Some xe | "f" | "F" => Some xf
  | _ => None
  end%char.

(** [n] hexadecimal digits. *)
Fixpoint digits (n : nat) : Type :=
  match n with
  | O => unit
  | S m => (hexdigit * digits m)%type
  end.

Fixpoint digits_text (n : nat) : digits n -> string :=
  match n with
  | O => fun _ => EmptyString
  | S m => fun ds => String (hexdigit_char (fst ds)) (digits_text m (snd ds))
  end.

(** Reads exactly [n] hexadecimal digits, nothing less and nothing more. *)
Fixpoint parse_digits (n : nat) (s : string) : option (digits n) :=
  match n with
  | O => match s with
         | EmptyString => Some tt
         | String _ _ => None
         end
  | S m => match s with
           | EmptyString => None
           | String c rest =>
               match char_hexdigit c, parse_digits m rest with
               | Some d, Some ds => Some (d, ds)
               | _, _ => None
               end
           end
  end.

Record ObjectId : Type := mkObjectId { oid_digits : digits 24 }.

(** [String(id)], [id.toString()] *)
Definition oid_text (id : ObjectId) : string := digits_text 24 (oid_digits id).

Arguments oid_text : simpl never.

(** The id written by 24 hexadecimal characters. *)
Definition oid_of_hex (s : string) : option ObjectId :=
  match parse_digits 24 s with
  | Some ds => Some (mkObjectId ds)
  | None => None
  end.

(** Equality of ids, as the store and [===] on their texts decide it. *)
Definition oid_eqb (a b : ObjectId) : bool := String.eqb (oid_text a) (oid_text b).

Definition oid_zero : ObjectId :=
  mkObjectId (x0, (x0, (x0, (x0, (x0, (x0, (x0, (x0, (x0, (x0, (x0, (x0,
             (x0, (x0, (x0, (x0, (x0, (x0, (x0, (x0, (x0, (x0, (x0, (x0,
              tt)))))))))))))))))))))))).
(** ** Documents (the Mongoose schemas) *)

Inductive Role : Type := normal | management | admin.

Definition role_name (r : Role) : string :=
  match r with
  | normal => "normal"
  | management => "management"
  | admin => "admin"
  end.

Definition role_eqb (a b : Role) : bool :=
  match a, b with
  | normal, normal | management, management | admin, admin => true
  | _, _ => false
  end.

(** The role-change handler's [allowed] array. *)
Definition allowed : list string := ["normal"; "management"; "admin"].

Definition includes (l : list string) (s : string) : bool :=
  existsb (String.eqb s) l.

Definition role_of_name (s : string) : option Role :=
  if String.eqb s "normal" then Some normal
  else if String.eqb s "management" then Some management
  else if String.eqb s "admin" then Some admin
  else None.

Record Credential : Type := mkCredential {
  c_id : ObjectId;
  c_system : string;
  c_username : string;
  c_password : string
}.

Record Division : Type := mkDivision {
  d_id : ObjectId;
  d_name : string;
  d_credentials : list Credential
}.

Record OU : Type := mkOU {
  o_id : ObjectId;
  o_name : string;
  o_divisions : list Division
}.

Record User : Type := mkUser {
  u_id : ObjectId;
  u_name : string;
  u_email : string;
  u_passwordHash : string;
  u_role : Role;
  u_ou : option ObjectId;
  u_division : option ObjectId
}.

Record DB : Type := mkDB { users : list User; ous : list OU }.

(** ** Requests *)

(** The claims a verified token decodes to ([req.user]). *)
Record Claims : Type := mkClaims {
  tok_id : string;
  tok_email : string;
  tok_role : string
}.

(** What [jwt.verify] throws. *)
Inductive JwtError : Type :=
| JsonWebTokenError   (* bad signature, malformed token *)
| TokenExpiredError
| NotBeforeError.

Record Request : Type := mkRequest {
  headers : gmap string string;
  param_id : string;        (* req.params.id *)
  param_credId : string;    (* req.params.credId *)
  body : gmap string string
}.

(** JS truthiness of a possibly absent string. *)
Definition truthy (v : option string) : bool :=
  match v with
  | Some s => negb (String.eqb s "")
  | None => false
  end.

(** [s.split(' ')] *)
Fixpoint split_space (s : string) : list string :=
  match s with
  | EmptyString => [EmptyString]
  | String c rest =>
      if Ascii.eqb c " "%char then EmptyString :: split_space rest
      else match split_space rest with
           | piece :: more => String c piece :: more
           | [] => [String c EmptyString]
           end
  end.

Fixpoint has_space (s : string) : bool :=
  match s with
  | EmptyString => false
  | String c rest => Ascii.eqb c " "%char || has_space rest
  end.

(** ** Queries *)

(** What a query by id gives back: it throws when the id it is given cannot
    be cast, answers [null] when no document matches, a document
    otherwise. *)
Inductive Query (A : Type) : Type :=
| Throws
| Null
| Doc (a : A).

Arguments Throws {A}.
Arguments Null {A}.
Arguments Doc {A} a.

(** ** Generic document-list operations *)

Section Docs.
Context {A : Type}.

(** First document satisfying [p] ([findOne], [.id()]). *)
Fixpoint find_doc (p : A -> bool) (l : list A) : option A :=
  match l with
  | [] => None
  | x :: rest => if p x then Some x else find_doc p rest
  end.

(** Rewrite the first document satisfying [p] with [y] ([save]). *)
Fixpoint save_doc (p : A -> bool) (y : A) (l : list A) : list A :=
  match l with
  | [] => []
  | x :: rest => if p x then y :: rest else x :: save_doc p y rest
  end.
End Docs.

(** ** The server *)

Section Server.
(** What the installed bson library makes of a text that is not 24
    hexadecimal characters: older versions read a 12-character string as
    twelve bytes, newer ones throw ([None]) on everything. *)
Variable castLegacy : string -> option ObjectId.
Variable jwt_verify : string -> JwtError + Claims.
(** The first argument is the clock at the time of signing (the token's
    [iat]; its [exp] is one hour later). *)
Variable jwt_sign : nat -> Claims -> string.
Variable bcrypt_hash : string -> string.
(** [None]: the comparison rejects (throws) instead of answering. *)
Variable bcrypt_compare : option string -> string -> option bool.

(** *** middleware/auth.js *)

Definition authMiddleware (req : Request) : Response + Claims :=
  let authHeader := headers req !! "authorization" in
  if negb (truthy authHeader) then
    inl (json_error 401 "No Authorization header provided")
  else
    let parts := split_space (default "" authHeader) in
    let scheme := nth_error parts 0 in
    let token := nth_error parts 1 in
    if negb (bool_decide (scheme = Some "Bearer")) || negb (truthy token) then
      inl (json_error 401 "Malformed Authorization header. Use: Bearer <token>")
    else
      match jwt_verify (default "" token) with
      | inr decoded => inr decoded
      | inl _ => inl (json_error 403 "Invalid or expired token")
      end.

(** A route registered as [app.METHOD(path, authMiddleware, handler)]:
    the handler runs only when the middleware calls [next()]. *)
Definition protected (handler : Claims -> DB -> Request -> DB * Response)
    (db : DB) (req : Request) : DB * Response :=
  match authMiddleware req with
  | inl res => (db, res)
  | inr decoded => handler decoded db req
  end.

(** *** server.js: the store *)

(** The cast Mongoose applies to an id given as text; [None] is the
    CastError. *)
Definition castObjectId (s : string) : option ObjectId :=
  match oid_of_hex s with
  | Some id => Some id
  | None => castLegacy s
  end.

(** What every handler's [catch] sends. *)
Definition server_error : Response := json_error 500 "Server error".

Definition has_user_id (id : ObjectId) (u : User) : bool := oid_eqb (u_id u) id.
Definition has_ou_id (id : ObjectId) (o : OU) : bool := oid_eqb (o_id o) id.
Definition has_division_id (id : ObjectId) (d : Division) : bool := oid_eqb (d_id d) id.
Definition has_credential_id (id : ObjectId) (c : Credential) : bool := oid_eqb (c_id c) id.

Definition of_option {A : Type} (o : option A) : Query A :=
  match o with
  | Some a => Doc a
  | None => Null
  end.

(** [User.findById(id)] *)
Definition User_findById (db : DB) (id : string) : Query User :=
  match castObjectId id with
  | None => Throws
  | Some oid => of_option (find_doc (has_user_id oid) (users db))
  end.

(** [User.findOne({ email })]; every stored user has an email, so an
    absent key matches nobody. *)
Definition User_findOne_email (db : DB) (email : option string) : option User :=
  match email with
  | Some e => find_doc (fun u => String.eqb (u_email u) e) (users db)
  | None => None
  end.

(** [user.save()] for a document already in the collection. *)
Definition User_save (u : User) (db : DB) : DB :=
  mkDB (save_doc (has_user_id (u_id u)) u (users db)) (ous db).

(** [user.save()] for a document made with [new User(...)]. *)
Definition User_insert (u : User) (db : DB) : DB :=
  mkDB (users db ++ [u]) (ous db).

(** [OU.findById(id)] *)
Definition OU_findById (db : DB) (id : string) : Query OU :=
  match castObjectId id with
  | None => Throws
  | Some oid => of_option (find_doc (has_ou_id oid) (ous db))
  end.

(** [array.id(id)] of a document array: a text that cannot be cast matches
    no subdocument; nothing is thrown. *)
Definition divisions_id (o : OU) (id : string) : option Division :=
  match castObjectId id with
  | None => None
  | Some oid => find_doc (has_division_id oid) (o_divisions o)
  end.

(** [division.credentials.id(id)] *)
Definition credentials_id (d : Division) (id : string) : option Credential :=
  match castObjectId id with
  | None => None
  | Some oid => find_doc (has_credential_id oid) (d_credentials d)
  end.

(** [OU.findOne({ 'divisions._id': id })] *)
Definition OU_findOne_division (db : DB) (id : string) : Query OU :=
  match castObjectId id with
  | None => Throws
  | Some oid =>
      of_option (find_doc (fun o => existsb (has_division_id oid) (o_divisions o)) (ous db))
  end.

(** [ou.save()] *)
Definition OU_save (o : OU) (db : DB) : DB :=
  mkDB (users db) (save_doc (has_ou_id (o_id o)) o (ous db)).

(** The unit after one of its divisions was mutated in place. *)
Definition with_division (o : OU) (d : Division) : OU :=
  mkOU (o_id o) (o_name o) (save_doc (has_division_id (d_id d)) d (o_divisions o)).

(** The division after one of its credentials was mutated in place. *)
Definition with_credential (d : Division) (c : Credential) : Division :=
  mkDivision (d_id d) (d_name d)
    (save_doc (has_credential_id (c_id c)) c (d_credentials d)).

(** *** server.js: helpers *)

Definition getCurrentUser (db : DB) (decoded : Claims) : Query User :=
  if String.eqb (tok_id decoded) "" then Null
  else User_findById db (tok_id decoded).

(** What [ensureDivisionAccess] leaves its caller with: the exception of
    the user lookup, the refusal it has sent, or the user it lets in. *)
Inductive Access : Type :=
| AccessThrows
| Refused (sent : Response)
| Granted (user : User).

Definition ensureDivisionAccess (db : DB) (decoded : Claims) (req : Request) : Access :=
  match getCurrentUser db decoded with
  | Throws => AccessThrows
  | Null => Refused (json_error 401 "Unknown user")
  | Doc current =>
      let targetDivisionId := param_id req in
      if role_eqb (u_role current) normal then
        match u_division current with
        | None => Refused (json_error 403 "Not allowed for this division")
        | Some division =>
            if negb (String.eqb (oid_text division) targetDivisionId) then
              Refused (json_error 403 "Not allowed for this division")
            else Granted current
        end
      else Granted current
  end.

Definition json_ref (r : option ObjectId) : Json :=
  match r with
  | Some id => JStr (oid_text id)
  | None => JNull
  end.

Definition publicUser (u : User) : Json :=
  JObj [("id", JStr (oid_text (u_id u))); ("name", JStr (u_name u));
        ("email", JStr (u_email u)); ("role", JStr (role_name (u_role u)));
        ("ou", json_ref (u_ou u)); ("division", json_ref (u_division u))].

Definition json_credential (c : Credential) : Json :=
  JObj [("_id", JStr (oid_text (c_id c))); ("system", JStr (c_system c));
        ("username", JStr (c_username c)); ("password", JStr (c_password c))].

(** The payload handed to [jwt.sign]: [{ id, email, role }]. *)
Definition claims_of (u : User) : Claims :=
  mkClaims (oid_text (u_id u)) (u_email u) (role_name (u_role u)).

(** *** Task 1: register and login *)

(** [now] is the clock when the token is signed, [fresh] the ObjectId that
    [new User(...)] draws. *)
Definition post_register (now : nat) (fresh : ObjectId) (db : DB) (req : Request)
    : DB * Response :=
  let name := body req !! "name" in
  let email := body req !! "email" in
  let password := body req !! "password" in
  if negb (truthy name) || negb (truthy email) || negb (truthy password) then
    (db, json_error 400 "All fields required")
  else
    match User_findOne_email db email with
    | Some _ => (db, json_error 409 "Email already registered")
    | None =>
        let passwordHash := bcrypt_hash (default "" password) in
        let user := mkUser fresh (default "" name) (default "" email)
                           passwordHash normal None None in
        let token := jwt_sign now (claims_of user) in
        (User_insert user db,
         mkResponse 201 (JObj [("message", JStr "Registered");
                               ("token", JStr token);
                               ("user", publicUser user)]))
    end.

Definition post_login (now : nat) (db : DB) (req : Request) : DB * Response :=
  let email := body req !! "email" in
  let password := body req !! "password" in
  match User_findOne_email db email with
  | None => (db, json_error 401 "Invalid email or password")
  | Some user =>
      match bcrypt_compare password (u_passwordHash user) with
      | None => (db, server_error)
      | Some false => (db, json_error 401 "Invalid email or password")
      | Some true =>
          let token := jwt_sign now (claims_of user) in
          (db, mkResponse 200 (JObj [("message", JStr "Login successful");
                                     ("token", JStr token);
                                     ("user", publicUser user)]))
      end
  end.

(** *** Task 2: the credential repository *)

Definition get_division_credentials (decoded : Claims) (db : DB) (req : Request)
    : DB * Response :=
  match ensureDivisionAccess db decoded req with
  | AccessThrows => (db, server_error)
  | Refused sent => (db, sent)
  | Granted _ =>
      match OU_findOne_division db (param_id req) with
      | Throws => (db, server_error)
      | Null => (db, json_error 404 "Division not found")
      | Doc result =>
          (* the projection 'divisions.$' keeps the first matching division *)
          match divisions_id result (param_id req) with
          | None => (db, json_error 404 "Division not found")
          | Some division =>
              (db, mkResponse 200
                     (JObj [("division", JObj [("id", JStr (oid_text (d_id division)));
                                               ("name", JStr (d_name division))]);
                            ("credentials",
                             JArr (map json_credential (d_credentials division)))]))
          end
      end
  end.

(** [fresh] is the ObjectId given to the pushed subdocument. *)
Definition post_division_credentials (fresh : ObjectId) (decoded : Claims)
    (db : DB) (req : Request) : DB * Response :=
  match ensureDivisionAccess db decoded req with
  | AccessThrows => (db, server_error)
  | Refused sent => (db, sent)
  | Granted _ =>
      let system := body req !! "system" in
      let username := body req !! "username" in
      let password := body req !! "password" in
      if negb (truthy system) || negb (truthy username) || negb (truthy password) then
        (db, json_error 400 "system, username, password are required")
      else
        match OU_findOne_division db (param_id req) with
        | Throws => (db, server_error)
        | Null => (db, json_error 404 "Division not found")
        | Doc ou =>
            match divisions_id ou (param_id req) with
            | None => (db, server_error)
            | Some division =>
                let pushed := mkCredential fresh (default "" system)
                                (default "" username) (default "" password) in
                let division' := mkDivision (d_id division) (d_name division)
                                   (d_credentials division ++ [pushed]) in
                (OU_save (with_division ou division') db,
                 mkResponse 201
                   (JObj [("message", JStr "Credential added");
                          ("credentials",
                           JArr (map json_credential (d_credentials division')))]))
            end
        end
  end.

(** The three conditional assignments of the update handler. *)
Definition patch_credential (cred : Credential) (system username password : option string)
    : Credential :=
  mkCredential (c_id cred)
    (match system with Some v => v | None => c_system cred end)
    (match username with Some v => v | None => c_username cred end)
    (match password with Some v => v | None => c_password cred end).

Definition put_division_credential (decoded : Claims) (db : DB) (req : Request)
    : DB * Response :=
  match getCurrentUser db decoded with
  | Throws => (db, server_error)
  | Null => (db, json_error 401 "Unknown user")
  | Doc current =>
      if role_eqb (u_role current) normal then
        (db, json_error 403 "Permission denied: management or admin required")
      else
        let system := body req !! "system" in
        let username := body req !! "username" in
        let password := body req !! "password" in
        match OU_findOne_division db (param_id req) with
        | Throws => (db, server_error)
        | Null => (db, json_error 404 "Division not found")
        | Doc ou =>
            match divisions_id ou (param_id req) with
            | None => (db, server_error)
            | Some division =>
                match credentials_id division (param_credId req) with
                | None => (db, json_error 404 "Credential not found")
                | Some cred =>
                    let cred' := patch_credential cred system username password in
                    (OU_save (with_division ou (with_credential division cred')) db,
                     mkResponse 200 (JObj [("message", JStr "Credential updated");
                                           ("credential", json_credential cred')]))
                end
            end
        end
  end.

(** *** Task 3: users, assignment, roles *)

Definition get_users (decoded : Claims) (db : DB) (req : Request) : DB * Response :=
  match getCurrentUser db decoded with
  | Throws => (db, server_error)
  | Null => (db, json_error 401 "Unknown user")
  | Doc current =>
      if role_eqb (u_role current) normal then
        (db, json_error 403 "Management or admin required")
      else
        (db, mkResponse 200
               (JObj [("items",
                       JArr (map (fun u =>
                               JObj [("id", JStr (oid_text (u_id u)));
                                     ("name", JStr (u_name u));
                                     ("email", JStr (u_email u));
                                     ("role", JStr (role_name (u_role u)));
                                     ("ou", match u_ou u with
                                            | Some o => JStr (oid_text o)
                                            | None => JNull
                                            end);
                                     ("division", match u_division u with
                                                  | Some d => JStr (oid_text d)
                                                  | None => JNull
                                                  end)])
                             (users db)))]))
  end.

Definition set_assignment (u : User) (ou division : option ObjectId) : User :=
  mkUser (u_id u) (u_name u) (u_email u) (u_passwordHash u) (u_role u) ou division.

Definition set_role (u : User) (r : Role) : User :=
  mkUser (u_id u) (u_name u) (u_email u) (u_passwordHash u) r (u_ou u) (u_division u).

Definition post_user_assign (decoded : Claims) (db : DB) (req : Request)
    : DB * Response :=
  match getCurrentUser db decoded with
  | Throws => (db, server_error)
  | Null => (db, json_error 401 "Unknown user")
  | Doc current =>
      if role_eqb (u_role current) normal then
        (db, json_error 403 "Management or admin required")
      else
        let ouId := body req !! "ouId" in
        let divisionId := body req !! "divisionId" in
        if negb (truthy ouId) || negb (truthy divisionId) then
          (db, json_error 400 "ouId and divisionId required")
        else
          match OU_findById db (default "" ouId) with
          | Throws => (db, server_error)
          | Null => (db, json_error 404 "OU not found")
          | Doc ou =>
              match divisions_id ou (default "" divisionId) with
              | None =>
                  (db, json_error 400 "divisionId does not belong to the specified OU")
              | Some division =>
                  match User_findById db (param_id req) with
                  | Throws => (db, server_error)
                  | Null => (db, json_error 404 "User not found")
                  | Doc user =>
                      let user' := set_assignment user (Some (o_id ou))
                                     (Some (d_id division)) in
                      (User_save user' db,
                       mkResponse 200 (JObj [("message", JStr "User assigned");
                                             ("user", publicUser user')]))
                  end
              end
          end
  end.

Definition delete_user_assign (decoded : Claims) (db : DB) (req : Request)
    : DB * Response :=
  match getCurrentUser db decoded with
  | Throws => (db, server_error)
  | Null => (db, json_error 401 "Unknown user")
  | Doc current =>
      if role_eqb (u_role current) normal then
        (db, json_error 403 "Management or admin required")
      else
        match User_findById db (param_id req) with
        | Throws => (db, server_error)
        | Null => (db, json_error 404 "User not found")
        | Doc user =>
            let user' := set_assignment user None None in
            (User_save user' db,
             mkResponse 200 (JObj [("message", JStr "User unassigned");
                                   ("user", publicUser user')]))
        end
  end.

Definition put_user_role (decoded : Claims) (db : DB) (req : Request)
    : DB * Response :=
  match getCurrentUser db decoded with
  | Throws => (db, server_error)
  | Null => (db, json_error 401 "Unknown user")
  | Doc current =>
      if negb (role_eqb (u_role current) admin) then
        (db, json_error 403 "Admin only")
      else
        let role := body req !! "role" in
        if negb (match role with Some r => includes allowed r | None => false end) then
          (db, json_error 400 "Invalid role (normal | management | admin)")
        else
          match User_findById db (param_id req) with
          | Throws => (db, server_error)
          | Null => (db, json_error 404 "User not found")
          | Doc user =>
              (* a value outside the schema's enum fails validation in save() *)
              match role_of_name (default "" role) with
              | None => (db, server_error)
              | Some r =>
                  let user' := set_role user r in
                  let requireReLogin :=
                    String.eqb (oid_text (u_id user')) (oid_text (u_id current)) in
                  (User_save user' db,
                   mkResponse 200 (JObj [("message", JStr "Role updated");
                                         ("user", publicUser user');
                                         ("requireReLogin", JBool requireReLogin)]))
              end
          end
  end.

(** *** Listing the units and their divisions *)

(** [GET /api/dev/divisions] *)
Definition get_dev_divisions (decoded : Claims) (db : DB) (req : Request) : DB * Response :=
  let items :=
    map (fun ou =>
           JObj [("ouId", JStr (oid_text (o_id ou))); ("ouName", JStr (o_name ou));
                 ("divisions",
                  JArr (map (fun d => JObj [("divisionId", JStr (oid_text (d_id d)));
                                            ("divisionName", JStr (d_name d))])
                            (o_divisions ou)))])
        (ous db) in
  (db, mkResponse 200 (JObj [("items", JArr items)])).

(** [GET /api/structure/ous]: the same data with the ids passed through
    [String]. *)
Definition get_structure_ous (decoded : Claims) (db : DB) (req : Request) : DB * Response :=
  let items :=
    map (fun ou =>
           JObj [("ouId", JStr (oid_text (o_id ou))); ("ouName", JStr (o_name ou));
                 ("divisions",
                  JArr (map (fun d => JObj [("divisionId", JStr (oid_text (d_id d)));
                                            ("divisionName", JStr (d_name d))])
                            (o_divisions ou)))])
        (ous db) in
  (db, mkResponse 200 (JObj [("items", JArr items)])).

(** *** The routes as registered on the app *)

Definition route_get_dev_divisions := protected get_dev_divisions.
Definition route_get_structure_ous := protected get_structure_ous.
Definition route_get_division_credentials := protected get_division_credentials.
Definition route_put_division_credential := protected put_division_credential.
Definition route_get_users := protected get_users.
Definition route_post_user_assign := protected post_user_assign.
Definition route_delete_user_assign := protected delete_user_assign.
Definition route_put_user_role := protected put_user_role.

End Server.
(** ** Vocabulary of the properties *)

(** The six fields of the public projection of a user. *)
Definition public_fields : list string :=
  ["id"; "name"; "email"; "role"; "ou"; "division"].

(** The same user document with another stored password hash. *)
Definition with_passwordHash (u : User) (h : string) : User :=
  mkUser (u_id u) (u_name u) (u_email u) h (u_role u) (u_ou u) (u_division u).

(** Assignment state of a user: Unassigned, or Assigned to a unit and a
    division; a state with only one reference set is neither. *)
Definition paired (u : User) : Prop :=
  (u_ou u = None /\ u_division u = None) \/
  (exists o d, u_ou u = Some o /\ u_division u = Some d).


(** No text occurs twice. *)
Fixpoint distinct (l : list string) : bool :=
  match l with
  | [] => true
  | s :: rest => negb (existsb (String.eqb s) rest) && distinct rest
  end.

(** The request with another body. *)
Definition with_body (req : Request) (b : gmap string string) : Request :=
  mkRequest (headers req) (param_id req) (param_credId req) b.

(** Two user documents that differ at most in role and assignment. *)
Definition same_account (u u' : User) : Prop :=
  u_id u' = u_id u /\ u_name u' = u_name u /\ u_email u' = u_email u /\
  u_passwordHash u' = u_passwordHash u.

(** ** Seeding (server.js, [seedData]) *)

(** The three arguments are the ObjectIds drawn for the unit and its two
    divisions. *)
Definition seedData (fresh_ou fresh_it fresh_finance : ObjectId) (db : DB) : DB :=
  let count := length (ous db) in
  if Nat.eqb count 0 then
    let ou := mkOU fresh_ou "News Management"
                [mkDivision fresh_it "IT Division" [];
                 mkDivision fresh_finance "Finance Division" []] in
    mkDB (users db) (ous db ++ [ou])
  else db.

(** ** The admin panel (frontend, AdminPanel.jsx) *)

Module AdminPanel.

(** The panel's [structure] state:
    [{ouId, ouName, divisions:[{divisionId, divisionName}]}]. *)
Record DivisionItem : Type := mkDivisionItem {
  divisionId : string;
  divisionName : string
}.

Record StructureItem : Type := mkStructureItem {
  ouId : string;
  ouName : string;
  divisions : list DivisionItem
}.

(** An entry of the flat [options] array. *)
Record PanelOption : Type := mkPanelOption {
  value : string;
  label : string;
  opt_ouId : string
}.

(** An entry of [divisionIndex]. *)
Record IndexEntry : Type := mkIndexEntry {
  ix_ouName : string;
  ix_divisionName : string;
  ix_ouId : string
}.

(** What [load()] puts in [structure] when the store is [db]:
    [sRes.data.items] of [GET /structure/ous]. *)
Definition loaded_structure (db : DB) : list StructureItem :=
  map (fun ou => mkStructureItem (oid_text (o_id ou)) (o_name ou)
                   (map (fun d => mkDivisionItem (oid_text (d_id d)) (d_name d))
                        (o_divisions ou)))
      (ous db).

Definition json_of_item (it : StructureItem) : Json :=
  JObj [("ouId", JStr (ouId it)); ("ouName", JStr (ouName it));
        ("divisions",
         JArr (map (fun d => JObj [("divisionId", JStr (divisionId d));
                                   ("divisionName", JStr (divisionName d))])
                   (divisions it)))].

(** The nested loops that fill [map] in the [divisionIndex] memo; a later
    [map.set] on the same key replaces the earlier one. *)
Definition index_entry (ou : StructureItem) (d : DivisionItem) : IndexEntry :=
  mkIndexEntry (ouName ou) (divisionName d) (ouId ou).

(** The inner loop: one [map.set] per division of [ou]. *)
Definition index_divisions (ou : StructureItem) (ds : list DivisionItem)
    (m : gmap string IndexEntry) : gmap string IndexEntry :=
  fold_left (fun m d => <[divisionId d := index_entry ou d]> m) ds m.

Definition divisionIndex (structure : list StructureItem) : gmap string IndexEntry :=
  fold_left (fun m ou => index_divisions ou (divisions ou) m) structure ∅.

(** The nested loops that push onto [options]. *)
Definition options (structure : list StructureItem) : list PanelOption :=
  flat_map
    (fun ou =>
       map (fun d => mkPanelOption (divisionId d)
                       (ouName ou +:+ " / " +:+ divisionName d) (ouId ou))
           (divisions ou))
    structure.

(** [assign(userId, ouId, divisionId)]: the request it posts. *)
Definition assign (token userId ouId divisionId : string) : Request :=
  mkRequest {[ "authorization" := "Bearer " +:+ token ]} userId ""
    (<["ouId" := ouId]> (<["divisionId" := divisionId]> ∅)).

(** The row's Assign button followed by [onAssign]: nothing is sent when no
    division is selected or the selection is not among the options. *)
Definition onAssign (token : string) (structure : list StructureItem)
    (userId selectedDiv : string) : option Request :=
  if String.eqb selectedDiv "" then None
  else
    match find_doc (fun o => String.eqb (value o) selectedDiv) (options structure) with
    | Some opt => Some (assign token userId (opt_ouId opt) selectedDiv)
    | None => None
    end.

End AdminPanel.

(** ** The credentials view (frontend, Credentials component) *)

Module CredentialsView.

(** The list kept in [credentials] after [updateCredential] got the
    server's answer [data.credential]. *)
Definition updateCredential (credentials : list Credential) (credId : string)
    (answered : Credential) : list Credential :=
  map (fun c => if String.eqb (oid_text (c_id c)) credId then answered else c) credentials.

(** [addCredential]: the form [adding] is posted only when it is complete. *)
Definition addCredential (token divisionId : string) (system username password : string)
    : option Request :=
  if String.eqb system "" || String.eqb username "" || String.eqb password "" then None
  else Some (mkRequest {[ "authorization" := "Bearer " +:+ token ]} divisionId ""
               (<["system" := system]> (<["username" := username]>
                  (<["password" := password]> ∅)))).

End CredentialsView.

(** ** A concrete deployment, used to run the handlers *)

Module Demo.

(** The id with the given hexadecimal text. *)
Definition oid (hex : string) : ObjectId := default oid_zero (oid_of_hex hex).

Definition u1 : string := "650a00000000000000000001".
Definition u2 : string := "650a00000000000000000002".
Definition u3 : string := "650a00000000000000000003".
Definition u4 : string := "650a00000000000000000004".
Definition u5 : string := "650a00000000000000000005".
Definition u_gone : string := "650a000000000000000000ff".
Definition ou1 : string := "650b00000000000000000001".
Definition ou2 : string := "650b00000000000000000002".
Definition ou_none : string := "650b000000000000000000ff".
Definition d1 : string := "650c00000000000000000001".
Definition d2 : string := "650c00000000000000000002".
Definition d_none : string := "650c000000000000000000ff".
Definition c1 : string := "650d00000000000000000001".
Definition c2 : string := "650d00000000000000000002".
Definition c9 : string := "650d00000000000000000009".

Definition alice : User :=
  mkUser (oid u1) "Alice" "alice@example.com" "h:alice-pw" normal
         (Some (oid ou1)) (Some (oid d1)).
Definition bob : User :=
  mkUser (oid u2) "Bob" "bob@example.com" "h:bob-pw" management None None.
Definition carol : User :=
  mkUser (oid u3) "Carol" "carol@example.com" "h:carol-pw" admin None None.

Definition wiki : Credential := mkCredential (oid c1) "wiki" "editor" "s3cret".
Definition mail : Credential := mkCredential (oid c2) "mail" "postmaster" "hunter2".

Definition it_division : Division := mkDivision (oid d1) "IT Division" [wiki; mail].
Definition finance_division : Division := mkDivision (oid d2) "Finance Division" [].
Definition news : OU := mkOU (oid ou1) "News Management" [it_division; finance_division].
Definition press : OU := mkOU (oid ou2) "Press" [].

Definition db : DB := mkDB [alice; bob; carol] [news; press].

Definition alice_claims : Claims := mkClaims u1 "alice@example.com" "normal".
Definition bob_claims : Claims := mkClaims u2 "bob@example.com" "management".
Definition carol_claims : Claims := mkClaims u3 "carol@example.com" "admin".

(** A bson that throws on every text but 24 hexadecimal characters. *)
Definition legacy (s : string) : option ObjectId := None.

Definition verify (token : string) : JwtError + Claims :=
  if String.eqb token "alice-token" then inr alice_claims
  else if String.eqb token "bob-token" then inr bob_claims
  else if String.eqb token "carol-token" then inr carol_claims
  else if String.eqb token "old-token" then inl TokenExpiredError
  else inl JsonWebTokenError.

Fixpoint stamp (n : nat) : string :=
  match n with
  | O => ""
  | S m => "i" +:+ stamp m
  end.

Definition sign (now : nat) (c : Claims) : string :=
  "jwt:" +:+ tok_id c +:+ "@" +:+ stamp now.
Definition hash (password : string) : string := "h:" +:+ password.
(** Like bcryptjs, the comparison rejects a password that is not a
    string. *)
Definition compare (password : option string) (h : string) : option bool :=
  match password with
  | Some p => Some (String.eqb (hash p) h)
  | None => None
  end.

Definition bearer (token : string) : gmap string string :=
  {[ "authorization" := "Bearer " +:+ token ]}.

Definition request (token id credId : string) (fields : list (string * string)) : Request :=
  mkRequest (bearer token) id credId (list_to_map fields).

End Demo.
(** ** Strings and document lists *)

Lemma split_space_no_space (s : string) :
  has_space s = false -> split_space s = [s].
Proof.
  induction s as [|c rest IH]; simpl; [reflexivity|].
  destruct (Ascii.eqb c " "); simpl; [discriminate|].
  intros H. rewrite (IH H). reflexivity.
Qed.

Lemma split_bearer (t : string) :
  has_space t = false -> split_space ("Bearer " +:+ t) = ["Bearer"; t].
Proof.
  intros H. simpl. change ("" +:+ t) with t.
  rewrite (split_space_no_space t H). reflexivity.
Qed.

Lemma truthy_Some (s : string) : s <> "" -> truthy (Some s) = true.
Proof.
  intros H. unfold truthy. destruct (String.eqb_spec s ""); [contradiction|reflexivity].
Qed.

Section DocLemmas.
Context {A : Type}.
Implicit Types (p q : A -> bool) (l : list A).

Lemma find_doc_holds p l x : find_doc p l = Some x -> p x = true.
Proof.
  induction l as [|a rest IH]; simpl; [discriminate|].
  destruct (p a) eqn:Hp; [intros [= <-]; exact Hp | exact IH].
Qed.

Lemma find_doc_In p l x : find_doc p l = Some x -> In x l.
Proof.
  induction l as [|a rest IH]; simpl; [discriminate|].
  destruct (p a); [intros [= <-]; now left | intros H; right; auto].
Qed.

Lemma find_doc_None p l : find_doc p l = None -> existsb p l = false.
Proof.
  induction l as [|a rest IH]; simpl; [reflexivity|].
  destruct (p a); [discriminate | exact IH].
Qed.

Lemma find_doc_exists p l : existsb p l = true -> exists x, find_doc p l = Some x.
Proof.
  destruct (find_doc p l) as [x|] eqn:H; [eauto|].
  rewrite (find_doc_None _ _ H). discriminate.
Qed.

(** Saving rewrites exactly the document that the same lookup finds. *)
Lemma save_doc_split p l x y :
  find_doc p l = Some x ->
  exists before after,
    l = (before ++ x :: after)%list /\
    existsb p before = false /\
    save_doc p y l = (before ++ y :: after)%list.
Proof.
  induction l as [|a rest IH]; simpl; [discriminate|].
  destruct (p a) eqn:Hp.
  - intros [= <-]. exists [], rest. auto.
  - intros H. destruct (IH H) as (b & c & -> & Hb & Hs).
    exists (a :: b), c. simpl. rewrite Hp, Hb, Hs. auto.
Qed.

Lemma save_doc_In p l y z : In z (save_doc p y l) -> z = y \/ In z l.
Proof.
  induction l as [|a rest IH]; simpl; [tauto|].
  destruct (p a); simpl; intros [H|H]; auto.
  destruct (IH H); auto.
Qed.

Lemma save_doc_length p l y : length (save_doc p y l) = length l.
Proof.
  induction l as [|a rest IH]; simpl; [reflexivity|].
  destruct (p a); simpl; auto.
Qed.

(** A lookup by [q] after a save keyed by [p]: the saved document is found
    as soon as it satisfies [q] and replaces what [q] found before. *)
Lemma find_after_save p q l x y :
  find_doc q l = Some x -> p x = true -> q y = true ->
  find_doc q (save_doc p y l) = Some y.
Proof.
  intros Hf Hp Hq. induction l as [|a rest IH]; simpl in *; [discriminate|].
  destruct (q a) eqn:Hqa.
  - injection Hf as ->. rewrite Hp. simpl. now rewrite Hq.
  - destruct (p a); simpl; [now rewrite Hq | rewrite Hqa; auto].
Qed.
End DocLemmas.

Section MoreDocLemmas.
Context {A : Type}.
Implicit Types (p q : A -> bool) (l : list A).

Lemma find_doc_absent p l : (forall x, In x l -> p x = false) -> find_doc p l = None.
Proof.
  induction l as [|a rest IH]; simpl; [reflexivity|].
  intros H. rewrite (H a) by now left. apply IH. intros x Hx. apply H. now right.
Qed.

Lemma find_doc_app p l y :
  find_doc p (l ++ [y])
  = match find_doc p l with
    | Some x => Some x
    | None => if p y then Some y else None
    end.
Proof.
  induction l as [|a rest IH]; simpl; [reflexivity|].
  destruct (p a); [reflexivity | exact IH].
Qed.

(** Saving the document that is already there changes nothing. *)
Lemma save_doc_same p l x : find_doc p l = Some x -> save_doc p x l = l.
Proof.
  induction l as [|a rest IH]; simpl; [reflexivity|].
  destruct (p a); [intros [= ->]; reflexivity | intros H; now rewrite IH].
Qed.

(** A lookup under a key that neither the rewritten documents nor the saved
    one carry is not affected by the save. *)
Lemma find_save_other p q l y :
  (forall x, p x = true -> q x = false) -> q y = false ->
  find_doc q (save_doc p y l) = find_doc q l.
Proof.
  intros Hpq Hy. induction l as [|a rest IH]; simpl; [reflexivity|].
  destruct (p a) eqn:Hp; simpl.
  - now rewrite Hy, (Hpq a Hp).
  - destruct (q a); [reflexivity | exact IH].
Qed.

Lemma map_save_doc {B : Type} (f : A -> B) p l x y :
  find_doc p l = Some x -> f y = f x -> map f (save_doc p y l) = map f l.
Proof.
  intros Hf Hy. destruct (save_doc_split p l x y Hf) as (b & c & -> & _ & ->).
  rewrite !map_app. simpl. now rewrite Hy.
Qed.
End MoreDocLemmas.

Lemma split_space_first_part (t rest : string) :
  has_space t = false ->
  split_space (t +:+ " " +:+ rest) = t :: split_space rest.
Proof.
  induction t as [|c t' IH]; simpl; [reflexivity|].
  destruct (Ascii.eqb c " "); simpl; [discriminate|].
  intros H. change (String.append t' (String " " rest)) with (t' +:+ " " +:+ rest).
  now rewrite (IH H).
Qed.

(** ** ObjectIds and their texts *)

Lemma char_of_hexdigit (d : hexdigit) : char_hexdigit (hexdigit_char d) = Some d.
Proof. destruct d; reflexivity. Qed.

Lemma parse_digits_text (n : nat) (ds : digits n) :
  parse_digits n (digits_text n ds) = Some ds.
Proof.
  induction n as [|m IH]; simpl.
  - now destruct ds.
  - destruct ds as [d rest]. simpl. now rewrite char_of_hexdigit, IH.
Qed.

(** An id is read back from its own text. *)
Lemma oid_of_hex_text (id : ObjectId) : oid_of_hex (oid_text id) = Some id.
Proof.
  unfold oid_of_hex, oid_text. rewrite parse_digits_text. now destruct id.
Qed.

Lemma oid_text_inj (a b : ObjectId) : oid_text a = oid_text b -> a = b.
Proof.
  intros H. pose proof (oid_of_hex_text a) as Ha. rewrite H, oid_of_hex_text in Ha.
  congruence.
Qed.

Lemma oid_eqb_eq (a b : ObjectId) : oid_eqb a b = true <-> a = b.
Proof.
  unfold oid_eqb. rewrite String.eqb_eq. split; [apply oid_text_inj | now intros ->].
Qed.

Lemma oid_eqb_refl (a : ObjectId) : oid_eqb a a = true.
Proof. now apply oid_eqb_eq. Qed.

Lemma oid_eqb_neq (a b : ObjectId) : oid_eqb a b = false <-> a <> b.
Proof.
  split.
  - intros H E. apply oid_eqb_eq in E. congruence.
  - intros H. destruct (oid_eqb a b) eqn:E; [|reflexivity].
    apply oid_eqb_eq in E. contradiction.
Qed.

Lemma oid_text_not_empty (id : ObjectId) : oid_text id <> "".
Proof. unfold oid_text. destruct id as [[d ds]]. discriminate. Qed.

(** Whatever the library does with other texts, the text of an id casts to
    that id. *)
Lemma castObjectId_text (castLegacy : string -> option ObjectId) (id : ObjectId) :
  castObjectId castLegacy (oid_text id) = Some id.
Proof. unfold castObjectId. now rewrite oid_of_hex_text. Qed.

Lemma distinct_NoDup (l : list string) : distinct l = true -> List.NoDup l.
Proof.
  induction l as [|s rest IH]; simpl; [constructor|].
  intros H. apply andb_prop in H as [Hs Hrest]. constructor; [|auto].
  intros Hin. apply negb_true_iff in Hs.
  assert (existsb (String.eqb s) rest = true); [|congruence].
  apply existsb_exists. exists s. split; [exact Hin | apply String.eqb_refl].
Qed.

Lemma distinct_ids {A : Type} (key : A -> ObjectId) (l : list A) :
  distinct (map (fun x => oid_text (key x)) l) = true -> List.NoDup (map key l).
Proof.
  intros H. apply distinct_NoDup in H.
  rewrite <- (map_map key oid_text) in H. now apply NoDup_map_inv in H.
Qed.

Lemma role_eqb_eq (a b : Role) : role_eqb a b = true <-> a = b.
Proof. destruct a, b; simpl; split; congruence. Qed.

Lemma role_of_name_includes (s : string) :
  includes allowed s = true -> exists r, role_of_name s = Some r /\ role_name r = s.
Proof.
  unfold includes, allowed, role_of_name. simpl.
  destruct (String.eqb_spec s "normal") as [->|]; [eauto|].
  destruct (String.eqb_spec s "management") as [->|]; [eauto|].
  destruct (String.eqb_spec s "admin") as [->|]; [eauto|].
  discriminate.
Qed.


(** ** The authorization guard *)

Section Guard.
Variable jwt_verify : string -> JwtError + Claims.

(** C1 as the code has it: a missing or malformed [Authorization] header is
    answered with 401, a bearer token that [jwt.verify] rejects (bad
    signature, malformed, expired) is answered with 403; in each case the
    route's handler does not run and the store is left as it was. *)
Theorem auth_guard_rejects_before_handler
    (handler : Claims -> DB -> Request -> DB * Response) (db : DB) (req : Request) :
  (truthy (headers req !! "authorization") = false ->
     protected jwt_verify handler db req
     = (db, json_error 401 "No Authorization header provided")) /\
  (forall a, headers req !! "authorization" = Some a -> a <> "" ->
     nth_error (split_space a) 0 <> Some "Bearer"
     \/ truthy (nth_error (split_space a) 1) = false ->
     protected jwt_verify handler db req
     = (db, json_error 401 "Malformed Authorization header. Use: Bearer <token>")) /\
  (forall t e, headers req !! "authorization" = Some ("Bearer " +:+ t) ->
     t <> "" -> has_space t = false -> jwt_verify t = inl e ->
     protected jwt_verify handler db req
     = (db, json_error 403 "Invalid or expired token")).
Proof.
  unfold protected, authMiddleware. repeat split.
  - intros ->. reflexivity.
  - intros a -> Ha Hbad. rewrite (truthy_Some a Ha). cbn [negb default from_option id].
    destruct Hbad as [Hs | Ht].
    + rewrite bool_decide_eq_false_2 by exact Hs. reflexivity.
    + rewrite Ht. rewrite orb_true_r. reflexivity.
  - intros t e -> Ht Hsp Hv.
    rewrite truthy_Some by discriminate.
    cbn [negb default from_option id]. rewrite (split_bearer t Hsp).
    cbn [nth_error]. rewrite bool_decide_eq_true_2 by reflexivity.
    rewrite (truthy_Some t Ht). cbn [negb orb default from_option id].
    rewrite Hv. reflexivity.
Qed.
End Guard.

(** A bearer token that fails verification because it expired gets 403. *)
Lemma auth_guard_rejects_before_handler_witness :
  protected Demo.verify (get_division_credentials Demo.legacy) Demo.db
    (Demo.request "old-token" Demo.d1 "" [])
  = (Demo.db, json_error 403 "Invalid or expired token").
Proof.
  apply (proj2 (proj2 (auth_guard_rejects_before_handler Demo.verify
                         (get_division_credentials Demo.legacy) Demo.db
                         (Demo.request "old-token" Demo.d1 "" [])))
           "old-token" TokenExpiredError).
  - vm_compute. reflexivity.
  - discriminate.
  - reflexivity.
  - reflexivity.
Defined.

(** C1 as stated fails: an expired token and a token with a bad signature
    are both answered with status 403, not 401. *)
Lemma rejected_token_status_is_not_401 :
  Demo.verify "old-token" = inl TokenExpiredError /\
  Demo.verify "forged" = inl JsonWebTokenError /\
  status (snd (route_get_division_credentials Demo.legacy Demo.verify Demo.db
                 (Demo.request "old-token" Demo.d1 "" []))) = 403 /\
  status (snd (route_get_division_credentials Demo.legacy Demo.verify Demo.db
                 (Demo.request "forged" Demo.d1 "" []))) = 403 /\
  403 <> 401.
Proof. vm_compute. repeat split; try reflexivity. discriminate. Qed.

(** ** Queries by id *)

Section QueryLemmas.
Variable castLegacy : string -> option ObjectId.

Lemma of_option_Doc {A : Type} (o : option A) (a : A) : of_option o = Doc a <-> o = Some a.
Proof. destruct o; simpl; split; congruence. Qed.

Lemma of_option_Null {A : Type} (o : option A) : of_option o = Null <-> o = None.
Proof. destruct o; simpl; split; congruence. Qed.

(** A document found by id carries the id the text was cast to. *)
Lemma User_findById_Doc (db : DB) (s : string) (u : User) :
  User_findById castLegacy db s = Doc u ->
  castObjectId castLegacy s = Some (u_id u) /\
  find_doc (has_user_id (u_id u)) (users db) = Some u.
Proof.
  unfold User_findById. destruct (castObjectId castLegacy s) as [oid|]; [|discriminate].
  intros H. apply of_option_Doc in H. pose proof (find_doc_holds _ _ _ H) as Hk.
  apply oid_eqb_eq in Hk. subst oid. auto.
Qed.


Lemma divisions_id_Some (o : OU) (s : string) (d : Division) :
  divisions_id castLegacy o s = Some d ->
  castObjectId castLegacy s = Some (d_id d) /\
  find_doc (has_division_id (d_id d)) (o_divisions o) = Some d.
Proof.
  unfold divisions_id. destruct (castObjectId castLegacy s) as [oid|]; [|discriminate].
  intros H. pose proof (find_doc_holds _ _ _ H) as Hk.
  apply oid_eqb_eq in Hk. subst oid. auto.
Qed.

Lemma credentials_id_Some (d : Division) (s : string) (c : Credential) :
  credentials_id castLegacy d s = Some c ->
  castObjectId castLegacy s = Some (c_id c) /\
  find_doc (has_credential_id (c_id c)) (d_credentials d) = Some c.
Proof.
  unfold credentials_id. destruct (castObjectId castLegacy s) as [oid|]; [|discriminate].
  intros H. pose proof (find_doc_holds _ _ _ H) as Hk.
  apply oid_eqb_eq in Hk. subst oid. auto.
Qed.

Lemma OU_findOne_division_Doc (db : DB) (s : string) (o : OU) :
  OU_findOne_division castLegacy db s = Doc o ->
  exists oid, castObjectId castLegacy s = Some oid /\
    find_doc (fun o => existsb (has_division_id oid) (o_divisions o)) (ous db) = Some o.
Proof.
  unfold OU_findOne_division. destruct (castObjectId castLegacy s) as [oid|]; [|discriminate].
  intros H. apply of_option_Doc in H. eauto.
Qed.

(** The unit found for a division id holds a division with that id. *)
Lemma owner_has_division (db : DB) (s : string) (ou : OU) :
  OU_findOne_division castLegacy db s = Doc ou ->
  exists d, divisions_id castLegacy ou s = Some d.
Proof.
  intros H. apply OU_findOne_division_Doc in H as (oid & Hc & H).
  unfold divisions_id. rewrite Hc. apply find_doc_holds in H. now apply find_doc_exists.
Qed.

Lemma getCurrentUser_Doc (db : DB) (decoded : Claims) (u : User) :
  getCurrentUser castLegacy db decoded = Doc u ->
  tok_id decoded <> "" /\ User_findById castLegacy db (tok_id decoded) = Doc u.
Proof.
  unfold getCurrentUser. destruct (String.eqb_spec (tok_id decoded) ""); [discriminate|].
  auto.
Qed.
End QueryLemmas.

(** ** Role and ownership rules on the credential repository *)

Section Rules.
Variable castLegacy : string -> option ObjectId.
Variable jwt_verify : string -> JwtError + Claims.






(** C3: a normal user's credential update is answered with 403 Forbidden
    whatever the division, the user's own included; nothing is written. *)
Theorem normal_user_cannot_update (db : DB) (req : Request)
    (decoded : Claims) (current : User) :
  authMiddleware jwt_verify req = inr decoded ->
  getCurrentUser castLegacy db decoded = Doc current ->
  u_role current = normal ->
  route_put_division_credential castLegacy jwt_verify db req
  = (db, json_error 403 "Permission denied: management or admin required").
Proof.
  intros Hauth Hcur Hrole.
  unfold route_put_division_credential, protected, put_division_credential.
  now rewrite Hauth, Hcur, Hrole.
Qed.

End Rules.

(** ** Assignment and role change *)

Lemma truthy_true (v : option string) :
  truthy v = true -> exists s, v = Some s /\ s <> "".
Proof.
  destruct v as [s|]; simpl; [|discriminate].
  destruct (String.eqb_spec s ""); [discriminate|eauto].
Qed.

Lemma find_doc_existsb {A : Type} (p : A -> bool) (l : list A) (x : A) :
  find_doc p l = Some x -> existsb p l = true.
Proof.
  intros H. apply existsb_exists. exists x.
  split; [eapply find_doc_In | eapply find_doc_holds]; eauto.
Qed.

Lemma includes_In (l : list string) (s : string) : In s l -> includes l s = true.
Proof.
  unfold includes. intros H. apply existsb_exists. exists s.
  split; [exact H | apply String.eqb_refl].
Qed.

Section SaveLemmas.
Variable castLegacy : string -> option ObjectId.

Lemma User_findById_saved (db : DB) (s : string) (user user' : User) :
  User_findById castLegacy db s = Doc user -> u_id user' = u_id user ->
  User_findById castLegacy (User_save user' db) s = Doc user'.
Proof.
  intros Hf Hid. apply User_findById_Doc in Hf as [Hc Hf].
  unfold User_findById, User_save. rewrite Hc. cbn [users]. rewrite Hid.
  apply of_option_Doc. eapply find_after_save; [exact Hf | |].
  - unfold has_user_id. apply oid_eqb_refl.
  - unfold has_user_id. rewrite Hid. apply oid_eqb_refl.
Qed.

Lemma divisions_id_with_division (o : OU) (s : string) (d d' : Division) :
  divisions_id castLegacy o s = Some d -> d_id d' = d_id d ->
  divisions_id castLegacy (with_division o d') s = Some d'.
Proof.
  intros Hf Hid. apply divisions_id_Some in Hf as [Hc Hf].
  unfold divisions_id, with_division. rewrite Hc. cbn [o_divisions]. rewrite Hid.
  eapply find_after_save; [exact Hf | |]; unfold has_division_id.
  - apply oid_eqb_refl.
  - rewrite Hid. apply oid_eqb_refl.
Qed.

Lemma OU_findOne_division_saved (db : DB) (s : string) (o o' : OU) (d' : Division) :
  OU_findOne_division castLegacy db s = Doc o -> o_id o' = o_id o ->
  divisions_id castLegacy o' s = Some d' ->
  OU_findOne_division castLegacy (OU_save o' db) s = Doc o'.
Proof.
  intros Hf Hid Hd. apply OU_findOne_division_Doc in Hf as (oid & Hc & Hf).
  unfold OU_findOne_division, OU_save. rewrite Hc. cbn [ous].
  apply of_option_Doc. eapply find_after_save; [exact Hf | |].
  - unfold has_ou_id. rewrite Hid. apply oid_eqb_refl.
  - unfold divisions_id in Hd. rewrite Hc in Hd. eapply find_doc_existsb. exact Hd.
Qed.
End SaveLemmas.

Section Assignment.
Variable castLegacy : string -> option ObjectId.
Variable jwt_verify : string -> JwtError + Claims.

End Assignment.

Section RoleChange.
Variable castLegacy : string -> option ObjectId.
Variable jwt_verify : string -> JwtError + Claims.

(** C5: a role change that succeeds (admin caller, role among normal,
    management and admin, existing target) answers with [requireReLogin]
    true exactly when the target is the caller's own account, false for
    any other account. *)
Theorem role_change_relogin_flag (db : DB) (req : Request)
    (decoded : Claims) (current user : User) (role : string) :
  authMiddleware jwt_verify req = inr decoded ->
  getCurrentUser castLegacy db decoded = Doc current ->
  u_role current = admin ->
  body req !! "role" = Some role -> In role allowed ->
  User_findById castLegacy db (param_id req) = Doc user ->
  let r := route_put_user_role castLegacy jwt_verify db req in
  status (snd r) = 200 /\
  (field "requireReLogin" (payload (snd r)) = Some (JBool true)
     <-> u_id user = u_id current) /\
  (field "requireReLogin" (payload (snd r)) = Some (JBool false)
     <-> u_id user <> u_id current) /\
  (u_id user = u_id current
     <-> castObjectId castLegacy (param_id req) = castObjectId castLegacy (tok_id decoded)).
Proof.
  intros Hauth Hcur Hadmin Hrole Hin Huser r. subst r.
  unfold route_put_user_role, protected, put_user_role.
  rewrite Hauth, Hcur, Hadmin, Hrole, Huser. cbn [role_eqb negb].
  rewrite (includes_In _ _ Hin). cbn [negb default from_option id].
  destruct (role_of_name_includes role (includes_In _ _ Hin)) as (r & -> & _).
  cbn [snd status payload field obj_get String.eqb Ascii.eqb Bool.eqb set_role u_id].
  apply User_findById_Doc in Huser as [Hu _].
  apply getCurrentUser_Doc in Hcur as [_ Hcur].
  apply User_findById_Doc in Hcur as [Hc _].
  split; [reflexivity|].
  change (String.eqb (oid_text (u_id user)) (oid_text (u_id current)))
    with (oid_eqb (u_id user) (u_id current)).
  destruct (oid_eqb (u_id user) (u_id current)) eqn:E.
  - apply oid_eqb_eq in E. repeat split; auto; congruence.
  - apply oid_eqb_neq in E. repeat split; auto; congruence.
Qed.
End RoleChange.

(** ** Credential update *)

Section Update.
Variable castLegacy : string -> option ObjectId.
Variable jwt_verify : string -> JwtError + Claims.

(** C6: a successful credential update replaces, in the one credential it
    targets, each of [system], [username] and [password] that the body
    supplies and keeps the prior value of each one it omits; the
    credential keeps its id, and the credentials before and after it in
    the division's list are the same as before. *)
Theorem update_replaces_supplied_fields_only (db : DB) (req : Request)
    (decoded : Claims) (current : User) (ou : OU) (division : Division)
    (cred : Credential) :
  authMiddleware jwt_verify req = inr decoded ->
  getCurrentUser castLegacy db decoded = Doc current ->
  u_role current <> normal ->
  OU_findOne_division castLegacy db (param_id req) = Doc ou ->
  divisions_id castLegacy ou (param_id req) = Some division ->
  credentials_id castLegacy division (param_credId req) = Some cred ->
  let r := route_put_division_credential castLegacy jwt_verify db req in
  status (snd r) = 200 /\
  exists ou' division' cred' before after,
    OU_findOne_division castLegacy (fst r) (param_id req) = Doc ou' /\
    divisions_id castLegacy ou' (param_id req) = Some division' /\
    d_credentials division = (before ++ cred :: after)%list /\
    d_credentials division' = (before ++ cred' :: after)%list /\
    existsb (has_credential_id (c_id cred)) before = false /\
    c_id cred' = c_id cred /\
    c_system cred' = default (c_system cred) (body req !! "system") /\
    c_username cred' = default (c_username cred) (body req !! "username") /\
    c_password cred' = default (c_password cred) (body req !! "password") /\
    field "credential" (payload (snd r)) = Some (json_credential cred') /\
    users (fst r) = users db.
Proof.
  intros Hauth Hcur Hrole Hou Hdiv Hcred r. subst r.
  unfold route_put_division_credential, protected, put_division_credential.
  rewrite Hauth, Hcur, Hou, Hdiv, Hcred.
  destruct (role_eqb (u_role current) normal) eqn:Hr;
    [apply role_eqb_eq in Hr; contradiction|].
  cbn [fst snd status payload]. split; [reflexivity|].
  set (cred' := patch_credential cred (body req !! "system")
                  (body req !! "username") (body req !! "password")).
  set (division' := with_credential division cred').
  apply credentials_id_Some in Hcred as [_ Hcred].
  destruct (save_doc_split (has_credential_id (c_id cred))
              (d_credentials division) cred cred' Hcred)
    as (before & after & Hsplit & Hfirst & Hsave).
  assert (Hdiv' : divisions_id castLegacy (with_division ou division') (param_id req)
                  = Some division').
  { now apply (divisions_id_with_division castLegacy ou _ division). }
  exists (with_division ou division'), division', cred', before, after.
  split; [eapply OU_findOne_division_saved; eauto|].
  split; [exact Hdiv'|]. split; [exact Hsplit|]. split; [exact Hsave|].
  split; [exact Hfirst|]. repeat split.
Qed.
End Update.
(** ** What a response shows of a user *)

Lemma guard_answer (jwt_verify : string -> JwtError + Claims) (req : Request) (res : Response) :
  authMiddleware jwt_verify req = inl res ->
  exists code msg, res = json_error code msg /\ (code = 401 \/ code = 403).
Proof.
  unfold authMiddleware. intros H.
  repeat case_match; simplify_eq; eauto.
Qed.

Lemma publicUser_clean (k : string) (u : User) :
  existsb (String.eqb k) public_fields = false ->
  mentions_key k (publicUser u) = false.
Proof.
  intros Hk. unfold publicUser, json_ref. cbn [mentions_key existsb fst snd].
  cbn [existsb public_fields] in Hk.
  repeat (apply orb_false_elim in Hk as [-> Hk]).
  now destruct (u_ou u), (u_division u).
Qed.

Lemma publicUser_list_clean (k : string) (l : list User) :
  existsb (String.eqb k) public_fields = false ->
  existsb (mentions_key k) (map publicUser l) = false.
Proof.
  intros Hk. induction l as [|u rest IH]; [reflexivity|].
  cbn [map existsb]. now rewrite IH, publicUser_clean.
Qed.

Ltac no_hash_key :=
  cbn [mentions_key existsb fst snd payload json_error];
  rewrite ?publicUser_clean by reflexivity; reflexivity.

Ltac answer_cases :=
  repeat case_match; simplify_eq; cbn [fst snd status payload];
  (split; [no_hash_key | intros Hstatus; try discriminate Hstatus]).

Section Projection.
Variable castLegacy : string -> option ObjectId.
Variable jwt_verify : string -> JwtError + Claims.
Variable jwt_sign : nat -> Claims -> string.
Variable bcrypt_hash : string -> string.
Variable bcrypt_compare : option string -> string -> option bool.

(** C7: register, login, list users, assign, unassign and change role
    show a user only through the public projection, an object with the
    six fields id, name, email, role, ou and division that does not read
    the stored hash (nor do the token's claims); no response of these
    operations carries a [passwordHash] field. *)
Theorem password_hash_never_in_response :
  (forall u, obj_keys (publicUser u) = public_fields) /\
  (forall u h, publicUser (with_passwordHash u h) = publicUser u /\
               claims_of (with_passwordHash u h) = claims_of u) /\
  (forall now fresh db req,
     let r := post_register jwt_sign bcrypt_hash now fresh db req in
     mentions_key "passwordHash" (payload (snd r)) = false /\
     (status (snd r) = 201 ->
      exists u, In u (users (fst r)) /\
        payload (snd r) = JObj [("message", JStr "Registered");
                                ("token", JStr (jwt_sign now (claims_of u)));
                                ("user", publicUser u)])) /\
  (forall now db req,
     let r := post_login jwt_sign bcrypt_compare now db req in
     mentions_key "passwordHash" (payload (snd r)) = false /\
     (status (snd r) = 200 ->
      exists u, In u (users db) /\
        payload (snd r) = JObj [("message", JStr "Login successful");
                                ("token", JStr (jwt_sign now (claims_of u)));
                                ("user", publicUser u)])) /\
  (forall db req,
     let r := route_get_users castLegacy jwt_verify db req in
     mentions_key "passwordHash" (payload (snd r)) = false /\
     (status (snd r) = 200 ->
      payload (snd r) = JObj [("items", JArr (map publicUser (users db)))])) /\
  (forall db req,
     let r := route_post_user_assign castLegacy jwt_verify db req in
     mentions_key "passwordHash" (payload (snd r)) = false /\
     (status (snd r) = 200 ->
      exists u, User_findById castLegacy (fst r) (param_id req) = Doc u /\
        payload (snd r) = JObj [("message", JStr "User assigned");
                                ("user", publicUser u)])) /\
  (forall db req,
     let r := route_delete_user_assign castLegacy jwt_verify db req in
     mentions_key "passwordHash" (payload (snd r)) = false /\
     (status (snd r) = 200 ->
      exists u, User_findById castLegacy (fst r) (param_id req) = Doc u /\
        payload (snd r) = JObj [("message", JStr "User unassigned");
                                ("user", publicUser u)])) /\
  (forall db req,
     let r := route_put_user_role castLegacy jwt_verify db req in
     mentions_key "passwordHash" (payload (snd r)) = false /\
     (status (snd r) = 200 ->
      exists u b, User_findById castLegacy (fst r) (param_id req) = Doc u /\
        payload (snd r) = JObj [("message", JStr "Role updated");
                                ("user", publicUser u);
                                ("requireReLogin", JBool b)])).
Proof.
  split; [reflexivity|]. split; [intros; split; reflexivity|].
  split; [|split; [|split; [|split; [|split]]]].
  - intros now fresh db req r. subst r. unfold post_register. answer_cases.
    eexists. split; [|reflexivity]. simpl. apply in_or_app. right. now left.
  - intros now db req r. subst r. unfold post_login. answer_cases.
    eexists. split; [|reflexivity].
    match goal with
    | H : User_findOne_email _ _ = Some _ |- _ =>
        unfold User_findOne_email in H;
        destruct (body req !! "email"); [|discriminate H];
        apply find_doc_In in H; exact H
    end.
  - intros db req r. subst r. unfold route_get_users, protected.
    destruct (authMiddleware jwt_verify req) as [res|decoded] eqn:Hauth.
    + apply guard_answer in Hauth as (code & msg & -> & [-> | ->]);
        (split; [reflexivity | discriminate]).
    + unfold get_users.
      repeat case_match; simplify_eq; cbn [fst snd status payload];
        try (split; [reflexivity | discriminate]).
      split; [|reflexivity].
      cbn [mentions_key existsb fst snd String.eqb Ascii.eqb Bool.eqb orb].
      rewrite orb_false_r. apply publicUser_list_clean. reflexivity.
  - intros db req r. subst r. unfold route_post_user_assign, protected.
    destruct (authMiddleware jwt_verify req) as [res|decoded] eqn:Hauth.
    + apply guard_answer in Hauth as (code & msg & -> & [-> | ->]);
        (split; [reflexivity | discriminate]).
    + unfold post_user_assign. answer_cases.
      eexists. split; [|reflexivity].
      eapply User_findById_saved; [eassumption|reflexivity].
  - intros db req r. subst r. unfold route_delete_user_assign, protected.
    destruct (authMiddleware jwt_verify req) as [res|decoded] eqn:Hauth.
    + apply guard_answer in Hauth as (code & msg & -> & [-> | ->]);
        (split; [reflexivity | discriminate]).
    + unfold delete_user_assign. answer_cases.
      eexists. split; [|reflexivity].
      eapply User_findById_saved; [eassumption|reflexivity].
  - intros db req r. subst r. unfold route_put_user_role, protected.
    destruct (authMiddleware jwt_verify req) as [res|decoded] eqn:Hauth.
    + apply guard_answer in Hauth as (code & msg & -> & [-> | ->]);
        (split; [reflexivity | discriminate]).
    + unfold put_user_role. answer_cases.
      eexists _, _. split; [|reflexivity].
      eapply User_findById_saved; [eassumption|reflexivity].
Qed.
End Projection.

(** ** Registration and login *)

Section Accounts.
Variable jwt_sign : nat -> Claims -> string.
Variable bcrypt_hash : string -> string.
Variable bcrypt_compare : option string -> string -> option bool.

(** C8: the user that a registration creates has role normal, in the
    stored document, in the response and in the token's claims; a [role]
    field in the body changes nothing of what registration does. *)
Theorem registration_role_is_normal (now : nat) (fresh : ObjectId) (db : DB)
    (req : Request) :
  let r := post_register jwt_sign bcrypt_hash now fresh db req in
  (forall name email password,
     body req !! "name" = Some name -> name <> "" ->
     body req !! "email" = Some email -> email <> "" ->
     body req !! "password" = Some password -> password <> "" ->
     User_findOne_email db (Some email) = None ->
     status (snd r) = 201) /\
  (status (snd r) = 201 ->
     exists u, users (fst r) = (users db ++ [u])%list /\
       u_role u = normal /\
       field "user" (payload (snd r)) = Some (publicUser u) /\
       field "role" (publicUser u) = Some (JStr "normal") /\
       field "token" (payload (snd r)) = Some (JStr (jwt_sign now (claims_of u))) /\
       tok_role (claims_of u) = "normal") /\
  (forall v, post_register jwt_sign bcrypt_hash now fresh db
               (with_body req (<["role" := v]> (body req))) = r).
Proof.
  intros r. subst r. unfold post_register. repeat split.
  - intros name email password -> Hn -> He -> Hp Hfree.
    rewrite !truthy_Some by assumption. cbn [negb orb]. now rewrite Hfree.
  - repeat case_match; cbn [fst snd status]; try discriminate.
    intros _. eexists. repeat split.
  - intros v. cbn [with_body body].
    now rewrite !lookup_insert_ne by discriminate.
Qed.

(** When [bcrypt.compare] answers false, the login is answered like one for
    an unknown email: 401 'Invalid email or password'. *)
Lemma wrong_password_answers_like_unknown_email (now : nat) (db : DB)
    (req_unknown req_wrong : Request) (user : User) :
  User_findOne_email db (body req_unknown !! "email") = None ->
  User_findOne_email db (body req_wrong !! "email") = Some user ->
  bcrypt_compare (body req_wrong !! "password") (u_passwordHash user) = Some false ->
  post_login jwt_sign bcrypt_compare now db req_unknown
  = (db, json_error 401 "Invalid email or password") /\
  post_login jwt_sign bcrypt_compare now db req_wrong
  = (db, json_error 401 "Invalid email or password").
Proof.
  intros Hunknown Hknown Hwrong. unfold post_login.
  now rewrite Hunknown, Hknown, Hwrong.
Qed.

(** C9 fails on the code: the login handler hands the body's password to
    [bcrypt.compare] without checking that it is there. When the comparison
    throws, as it does for a login that carries no password, a known email
    is answered 500 'Server error' and an unknown one 401, so the two
    failed logins are told apart and the answer shows whether the email is
    registered. *)
Theorem login_without_password_reveals_email (now : nat) (db : DB)
    (req_unknown req_known : Request) (user : User) :
  User_findOne_email db (body req_unknown !! "email") = None ->
  User_findOne_email db (body req_known !! "email") = Some user ->
  bcrypt_compare (body req_known !! "password") (u_passwordHash user) = None ->
  post_login jwt_sign bcrypt_compare now db req_unknown
  = (db, json_error 401 "Invalid email or password") /\
  post_login jwt_sign bcrypt_compare now db req_known = (db, server_error) /\
  snd (post_login jwt_sign bcrypt_compare now db req_unknown)
  <> snd (post_login jwt_sign bcrypt_compare now db req_known).
Proof.
  intros Hunknown Hknown Hthrows. unfold post_login.
  rewrite Hunknown, Hknown, Hthrows. repeat split. discriminate.
Qed.
End Accounts.

(** ** Order of the checks on the credential repository *)


Section CheckOrder.
Variable castLegacy : string -> option ObjectId.
Variable jwt_verify : string -> JwtError + Claims.

End CheckOrder.

(** ** The properties at work on the concrete deployment *)

Ltac differ := let H := fresh in intros H; vm_compute in H; discriminate H.

Module Scenario.
Import Demo.

(** Alice, a normal user of division d1, reads d1 and is refused d2. *)
Example alice_reads_own_division :
  status (snd (route_get_division_credentials legacy verify db
                 (request "alice-token" d1 "" []))) = 200.
Proof. vm_compute. reflexivity. Qed.

Example alice_refused_other_division :
  route_get_division_credentials legacy verify db (request "alice-token" d2 "" [])
  = (db, json_error 403 "Not allowed for this division").
Proof. vm_compute. reflexivity. Qed.

(** The access check compares texts: the upper-case spelling of her own
    division's id is refused to Alice, while Bob, who passes the check by
    role, reads the division under that spelling. *)
Example upper_case_division_id :
  status (snd (route_get_division_credentials legacy verify db
                 (request "alice-token" "650C00000000000000000001" "" []))) = 403 /\
  status (snd (route_get_division_credentials legacy verify db
                 (request "bob-token" "650C00000000000000000001" "" []))) = 200.
Proof. vm_compute. split; reflexivity. Qed.

(** Bob changes only the password of credential c1. *)
Example bob_updates_password_only :
  ous (fst (route_put_division_credential legacy verify db
              (request "bob-token" d1 c1 [("password", "n3w")])))
  = [mkOU (oid ou1) "News Management"
       [mkDivision (oid d1) "IT Division"
          [mkCredential (oid c1) "wiki" "editor" "n3w"; mail];
        finance_division];
     press].
Proof. vm_compute. reflexivity. Qed.

(** A body that asks for the admin role still registers a normal user. *)
Example register_with_role_field :
  users (fst (post_register sign hash 7 (oid u4) db
                (request "" "" "" [("name", "Dave"); ("email", "dave@example.com");
                                   ("password", "pw"); ("role", "admin")])))
  = [alice; bob; carol;
     mkUser (oid u4) "Dave" "dave@example.com" "h:pw" normal None None].
Proof. vm_compute. reflexivity. Qed.

(** Assigning to a division of another unit writes nothing. *)
Example assign_foreign_division :
  route_post_user_assign legacy verify db
    (request "bob-token" u2 "" [("ouId", ou2); ("divisionId", d1)])
  = (db, json_error 400 "divisionId does not belong to the specified OU").
Proof. vm_compute. reflexivity. Qed.

(** An id that is no ObjectId: the queries throw, the array lookup does
    not. *)
Example malformed_ids :
  route_get_division_credentials legacy verify db (request "bob-token" "d404" "" [])
  = (db, server_error) /\
  route_delete_user_assign legacy verify db (request "bob-token" "u77" "" [])
  = (db, server_error) /\
  route_post_user_assign legacy verify db
    (request "bob-token" u1 "" [("ouId", ou1); ("divisionId", "d404")])
  = (db, json_error 400 "divisionId does not belong to the specified OU").
Proof. vm_compute. repeat split; reflexivity. Qed.
End Scenario.


Lemma normal_user_cannot_update_witness :
  route_put_division_credential Demo.legacy Demo.verify Demo.db
    (Demo.request "alice-token" Demo.d1 Demo.c1 [("password", "n3w")])
  = (Demo.db, json_error 403 "Permission denied: management or admin required").
Proof.
  apply (normal_user_cannot_update Demo.legacy Demo.verify Demo.db
           (Demo.request "alice-token" Demo.d1 Demo.c1 [("password", "n3w")])
           Demo.alice_claims Demo.alice).
  - vm_compute. reflexivity.
  - vm_compute. reflexivity.
  - reflexivity.
Defined.



Lemma role_change_relogin_flag_witness :
  field "requireReLogin"
    (payload (snd (route_put_user_role Demo.legacy Demo.verify Demo.db
                     (Demo.request "carol-token" Demo.u3 "" [("role", "management")]))))
  = Some (JBool true).
Proof.
  apply (role_change_relogin_flag Demo.legacy Demo.verify Demo.db
           (Demo.request "carol-token" Demo.u3 "" [("role", "management")])
           Demo.carol_claims Demo.carol Demo.carol "management").
  - vm_compute. reflexivity.
  - vm_compute. reflexivity.
  - reflexivity.
  - vm_compute. reflexivity.
  - simpl. auto.
  - vm_compute. reflexivity.
  - reflexivity.
Defined.

Lemma update_replaces_supplied_fields_only_witness :
  status (snd (route_put_division_credential Demo.legacy Demo.verify Demo.db
                 (Demo.request "bob-token" Demo.d1 Demo.c1 [("password", "n3w")]))) = 200.
Proof.
  apply (update_replaces_supplied_fields_only Demo.legacy Demo.verify Demo.db
           (Demo.request "bob-token" Demo.d1 Demo.c1 [("password", "n3w")])
           Demo.bob_claims Demo.bob Demo.news Demo.it_division Demo.wiki).
  - vm_compute. reflexivity.
  - vm_compute. reflexivity.
  - discriminate.
  - vm_compute. reflexivity.
  - vm_compute. reflexivity.
  - vm_compute. reflexivity.
Defined.

Lemma password_hash_never_in_response_witness :
  exists u, In u (users Demo.db) /\
    payload (snd (post_login Demo.sign Demo.compare 7 Demo.db
                    (Demo.request "" "" "" [("email", "alice@example.com");
                                            ("password", "alice-pw")])))
    = JObj [("message", JStr "Login successful");
            ("token", JStr (Demo.sign 7 (claims_of u)));
            ("user", publicUser u)].
Proof.
  apply (proj1 (proj2 (proj2 (proj2
           (password_hash_never_in_response Demo.legacy Demo.verify Demo.sign Demo.hash
              Demo.compare))))
           7 Demo.db
           (Demo.request "" "" "" [("email", "alice@example.com");
                                   ("password", "alice-pw")])).
  vm_compute. reflexivity.
Defined.

Lemma registration_role_is_normal_witness :
  status (snd (post_register Demo.sign Demo.hash 7 (Demo.oid Demo.u4) Demo.db
                 (Demo.request "" "" "" [("name", "Dave"); ("email", "dave@example.com");
                                         ("password", "pw"); ("role", "admin")]))) = 201.
Proof.
  apply (proj1 (registration_role_is_normal Demo.sign Demo.hash 7 (Demo.oid Demo.u4)
                  Demo.db
                  (Demo.request "" "" "" [("name", "Dave"); ("email", "dave@example.com");
                                          ("password", "pw"); ("role", "admin")]))
           "Dave" "dave@example.com" "pw").
  - vm_compute. reflexivity.
  - discriminate.
  - vm_compute. reflexivity.
  - discriminate.
  - vm_compute. reflexivity.
  - discriminate.
  - vm_compute. reflexivity.
Defined.

(** A login for Alice's email without a password is answered 500, the same
    login for an email nobody registered 401. *)
Lemma login_without_password_reveals_email_witness :
  post_login Demo.sign Demo.compare 7 Demo.db
    (Demo.request "" "" "" [("email", "nobody@example.com")])
  = (Demo.db, json_error 401 "Invalid email or password") /\
  post_login Demo.sign Demo.compare 7 Demo.db
    (Demo.request "" "" "" [("email", "alice@example.com")])
  = (Demo.db, json_error 500 "Server error") /\
  snd (post_login Demo.sign Demo.compare 7 Demo.db
         (Demo.request "" "" "" [("email", "nobody@example.com")]))
  <> snd (post_login Demo.sign Demo.compare 7 Demo.db
            (Demo.request "" "" "" [("email", "alice@example.com")])).
Proof.
  apply (login_without_password_reveals_email Demo.sign Demo.compare 7 Demo.db
           (Demo.request "" "" "" [("email", "nobody@example.com")])
           (Demo.request "" "" "" [("email", "alice@example.com")])
           Demo.alice).
  - vm_compute. reflexivity.
  - vm_compute. reflexivity.
  - vm_compute. reflexivity.
Defined.



(** * Further properties of the server and of the two views *)

(** ** The guard, continued *)

Section GuardMore.
Variable jwt_verify : string -> JwtError + Claims.

(** X1: the guard hands [jwt.verify] the text between the first and the second
    space of the header and nothing else: whatever follows a second space is
    ignored, and the route then does what the handler does with the decoded
    claims, or answers 403 when verification fails. *)
Theorem bearer_token_is_second_part
    (handler : Claims -> DB -> Request -> DB * Response) (db : DB) (req : Request)
    (t rest : string) :
  t <> "" -> has_space t = false ->
  headers req !! "authorization" = Some ("Bearer " +:+ t) \/
  headers req !! "authorization" = Some ("Bearer " +:+ t +:+ " " +:+ rest) ->
  protected jwt_verify handler db req
  = match jwt_verify t with
    | inr decoded => handler decoded db req
    | inl _ => (db, json_error 403 "Invalid or expired token")
    end.
Proof.
  intros Ht Hsp Hh. unfold protected, authMiddleware.
  assert (Hparts : exists more,
             split_space (default "" (headers req !! "authorization"))
             = "Bearer" :: t :: more /\
             truthy (headers req !! "authorization") = true).
  { destruct Hh as [-> | ->]; cbn [default from_option id].
    - exists []. split; [now apply split_bearer | reflexivity].
    - exists (split_space rest). split; [|reflexivity].
      change ("Bearer " +:+ t +:+ " " +:+ rest)
        with ("Bearer" +:+ " " +:+ (t +:+ " " +:+ rest)).
      rewrite split_space_first_part by reflexivity.
      now rewrite split_space_first_part. }
  destruct Hparts as (more & -> & ->). cbn [negb nth_error].
  rewrite bool_decide_eq_true_2 by reflexivity.
  rewrite (truthy_Some t Ht). cbn [negb orb default from_option id].
  now destruct (jwt_verify t).
Qed.
End GuardMore.

Lemma bearer_token_is_second_part_witness :
  protected Demo.verify (get_users Demo.legacy) Demo.db
    (mkRequest {[ "authorization" := "Bearer bob-token and more" ]} "" "" ∅)
  = get_users Demo.legacy Demo.bob_claims Demo.db
      (mkRequest {[ "authorization" := "Bearer bob-token and more" ]} "" "" ∅).
Proof.
  apply (bearer_token_is_second_part Demo.verify (get_users Demo.legacy) Demo.db
           (mkRequest {[ "authorization" := "Bearer bob-token and more" ]} "" "" ∅)
           "bob-token" "and more").
  - discriminate.
  - reflexivity.
  - right. vm_compute. reflexivity.
Defined.

(** ** Who the caller is *)

Section Caller.
Variable castLegacy : string -> option ObjectId.

Lemma getCurrentUser_same_id (db : DB) (c1 c2 : Claims) :
  tok_id c1 = tok_id c2 ->
  getCurrentUser castLegacy db c1 = getCurrentUser castLegacy db c2.
Proof. intros H. unfold getCurrentUser. now rewrite H. Qed.

Lemma ensureDivisionAccess_same_id (db : DB) (c1 c2 : Claims) (req : Request) :
  tok_id c1 = tok_id c2 ->
  ensureDivisionAccess castLegacy db c1 req = ensureDivisionAccess castLegacy db c2 req.
Proof.
  intros H. unfold ensureDivisionAccess. now rewrite (getCurrentUser_same_id db c1 c2 H).
Qed.

(** X2: of the claims decoded from the token only the id is used. Two tokens
    for the same id, whatever role and email they carry, get the same
    answer and the same store from every protected handler, so a role
    embedded in a token, stale or not, never decides anything. *)
Theorem token_role_is_never_used (fresh : ObjectId) (db : DB) (req : Request)
    (c1 c2 : Claims) :
  tok_id c1 = tok_id c2 ->
  get_division_credentials castLegacy c1 db req
  = get_division_credentials castLegacy c2 db req /\
  post_division_credentials castLegacy fresh c1 db req
  = post_division_credentials castLegacy fresh c2 db req /\
  put_division_credential castLegacy c1 db req
  = put_division_credential castLegacy c2 db req /\
  get_users castLegacy c1 db req = get_users castLegacy c2 db req /\
  post_user_assign castLegacy c1 db req = post_user_assign castLegacy c2 db req /\
  delete_user_assign castLegacy c1 db req = delete_user_assign castLegacy c2 db req /\
  put_user_role castLegacy c1 db req = put_user_role castLegacy c2 db req /\
  get_dev_divisions c1 db req = get_dev_divisions c2 db req /\
  get_structure_ous c1 db req = get_structure_ous c2 db req.
Proof.
  intros H.
  pose proof (getCurrentUser_same_id db c1 c2 H) as Hcur.
  pose proof (ensureDivisionAccess_same_id db c1 c2 req H) as Hacc.
  unfold get_division_credentials, post_division_credentials, put_division_credential,
    get_users, post_user_assign, delete_user_assign, put_user_role.
  rewrite Hcur, Hacc. repeat split.
Qed.

(** X3: a verified token whose id is empty, or casts to an id that no
    stored user carries, is answered 401 'Unknown user' by every handler
    that checks a role; a token whose id cannot be cast makes the user
    lookup throw and is answered 500 'Server error'. Nothing is written in
    either case. *)
Theorem unknown_user_is_unauthenticated (fresh : ObjectId) (db : DB) (req : Request)
    (decoded : Claims) :
  (tok_id decoded = "" \/
   (exists oid, castObjectId castLegacy (tok_id decoded) = Some oid /\
      forall u, In u (users db) -> u_id u <> oid) ->
   let unknown := (db, json_error 401 "Unknown user") in
   get_division_credentials castLegacy decoded db req = unknown /\
   post_division_credentials castLegacy fresh decoded db req = unknown /\
   put_division_credential castLegacy decoded db req = unknown /\
   get_users castLegacy decoded db req = unknown /\
   post_user_assign castLegacy decoded db req = unknown /\
   delete_user_assign castLegacy decoded db req = unknown /\
   put_user_role castLegacy decoded db req = unknown) /\
  (tok_id decoded <> "" -> castObjectId castLegacy (tok_id decoded) = None ->
   let failed := (db, json_error 500 "Server error") in
   get_division_credentials castLegacy decoded db req = failed /\
   post_division_credentials castLegacy fresh decoded db req = failed /\
   put_division_credential castLegacy decoded db req = failed /\
   get_users castLegacy decoded db req = failed /\
   post_user_assign castLegacy decoded db req = failed /\
   delete_user_assign castLegacy decoded db req = failed /\
   put_user_role castLegacy decoded db req = failed).
Proof.
  split.
  - intros Hwho unknown. subst unknown.
    assert (Hcur : getCurrentUser castLegacy db decoded = Null).
    { unfold getCurrentUser. destruct Hwho as [-> | (oid & Hc & Hnone)]; [reflexivity|].
      destruct (String.eqb (tok_id decoded) ""); [reflexivity|].
      unfold User_findById. rewrite Hc. rewrite find_doc_absent; [reflexivity|].
      intros u Hu. apply oid_eqb_neq. now apply Hnone. }
    unfold get_division_credentials, post_division_credentials, ensureDivisionAccess,
      put_division_credential, get_users, post_user_assign, delete_user_assign,
      put_user_role.
    rewrite Hcur. repeat split.
  - intros Hne Hc failed. subst failed.
    assert (Hcur : getCurrentUser castLegacy db decoded = Throws).
    { unfold getCurrentUser, User_findById. rewrite Hc.
      now destruct (String.eqb_spec (tok_id decoded) ""). }
    unfold get_division_credentials, post_division_credentials, ensureDivisionAccess,
      put_division_credential, get_users, post_user_assign, delete_user_assign,
      put_user_role.
    rewrite Hcur. repeat split.
Qed.

(** X4: listing users, assigning and unassigning are refused with 403 to a
    caller whose stored role is normal, and changing a role is refused with
    403 'Admin only' to every caller whose stored role is not admin,
    management included; a refusal writes nothing. *)
Theorem role_gates (db : DB) (req : Request) (decoded : Claims) (current : User) :
  getCurrentUser castLegacy db decoded = Doc current ->
  (u_role current = normal ->
     get_users castLegacy decoded db req
     = (db, json_error 403 "Management or admin required") /\
     post_user_assign castLegacy decoded db req
     = (db, json_error 403 "Management or admin required") /\
     delete_user_assign castLegacy decoded db req
     = (db, json_error 403 "Management or admin required")) /\
  (u_role current <> admin ->
     put_user_role castLegacy decoded db req = (db, json_error 403 "Admin only")) /\
  (u_role current <> normal ->
     status (snd (get_users castLegacy decoded db req)) = 200 /\
     status (snd (post_user_assign castLegacy decoded db req)) <> 403 /\
     status (snd (delete_user_assign castLegacy decoded db req)) <> 403) /\
  (u_role current = admin ->
     status (snd (put_user_role castLegacy decoded db req)) <> 403).
Proof.
  intros Hcur.
  unfold get_users, post_user_assign, delete_user_assign, put_user_role.
  rewrite Hcur. split; [|split; [|split]].
  - intros ->. repeat split.
  - intros Hr. destruct (role_eqb (u_role current) admin) eqn:E; [|reflexivity].
    apply role_eqb_eq in E. contradiction.
  - intros Hr. destruct (role_eqb (u_role current) normal) eqn:E;
      [apply role_eqb_eq in E; contradiction|].
    split; [reflexivity|]. split; repeat case_match; simpl; discriminate.
  - intros ->. cbn [role_eqb negb]. repeat case_match; simpl; discriminate.
Qed.
End Caller.

Lemma token_role_is_never_used_witness :
  get_users Demo.legacy (mkClaims Demo.u1 "alice@example.com" "admin") Demo.db
    (Demo.request "" "" "" [])
  = get_users Demo.legacy Demo.alice_claims Demo.db (Demo.request "" "" "" []).
Proof.
  apply (token_role_is_never_used Demo.legacy (Demo.oid Demo.c9) Demo.db
           (Demo.request "" "" "" [])
           (mkClaims Demo.u1 "alice@example.com" "admin") Demo.alice_claims).
  reflexivity.
Defined.

Lemma unknown_user_is_unauthenticated_witness :
  put_user_role Demo.legacy (mkClaims Demo.u_gone "gone@example.com" "admin") Demo.db
    (Demo.request "" Demo.u1 "" [("role", "admin")])
  = (Demo.db, json_error 401 "Unknown user").
Proof.
  apply (proj1 (unknown_user_is_unauthenticated Demo.legacy (Demo.oid Demo.c9) Demo.db
                  (Demo.request "" Demo.u1 "" [("role", "admin")])
                  (mkClaims Demo.u_gone "gone@example.com" "admin"))).
  right. exists (Demo.oid Demo.u_gone). split; [vm_compute; reflexivity|].
  intros u [<- | [<- | [<- | []]]]; differ.
Defined.

Lemma role_gates_witness :
  put_user_role Demo.legacy Demo.bob_claims Demo.db
    (Demo.request "" Demo.u1 "" [("role", "admin")])
  = (Demo.db, json_error 403 "Admin only").
Proof.
  apply (role_gates Demo.legacy Demo.db (Demo.request "" Demo.u1 "" [("role", "admin")])
           Demo.bob_claims Demo.bob).
  - vm_compute. reflexivity.
  - discriminate.
Defined.

(** ** What an operation writes *)

Ltac handler_cases := repeat case_match; simplify_eq; cbn [fst snd status users ous].

Section Writes.
Variable castLegacy : string -> option ObjectId.
Variable jwt_sign : nat -> Claims -> string.
Variable bcrypt_hash : string -> string.
Variable bcrypt_compare : option string -> string -> option bool.

(** X5: login, reading credentials, listing users and the two structure
    listings leave the store as it is; adding and updating credentials
    never touch the user collection; registering, assigning, unassigning
    and changing a role never touch the units. *)
Theorem stores_touched (now : nat) (fresh : ObjectId) (decoded : Claims) (db : DB)
    (req : Request) :
  fst (post_login jwt_sign bcrypt_compare now db req) = db /\
  fst (get_division_credentials castLegacy decoded db req) = db /\
  fst (get_users castLegacy decoded db req) = db /\
  fst (get_dev_divisions decoded db req) = db /\
  fst (get_structure_ous decoded db req) = db /\
  users (fst (post_division_credentials castLegacy fresh decoded db req)) = users db /\
  users (fst (put_division_credential castLegacy decoded db req)) = users db /\
  ous (fst (post_register jwt_sign bcrypt_hash now fresh db req)) = ous db /\
  ous (fst (post_user_assign castLegacy decoded db req)) = ous db /\
  ous (fst (delete_user_assign castLegacy decoded db req)) = ous db /\
  ous (fst (put_user_role castLegacy decoded db req)) = ous db.
Proof.
  unfold post_login, get_division_credentials, get_users, get_dev_divisions,
    get_structure_ous, post_division_credentials, put_division_credential,
    post_register, post_user_assign, delete_user_assign, put_user_role.
  repeat split; handler_cases; reflexivity.
Qed.

(** X6: an answer other than the success status of the operation (201 for
    register and add, 200 for update, unassign and role change) means that
    nothing was written. *)
Theorem failures_write_nothing (now : nat) (fresh : ObjectId) (decoded : Claims)
    (db : DB) (req : Request) :
  (status (snd (post_register jwt_sign bcrypt_hash now fresh db req)) <> 201 ->
     fst (post_register jwt_sign bcrypt_hash now fresh db req) = db) /\
  (status (snd (post_division_credentials castLegacy fresh decoded db req)) <> 201 ->
     fst (post_division_credentials castLegacy fresh decoded db req) = db) /\
  (status (snd (put_division_credential castLegacy decoded db req)) <> 200 ->
     fst (put_division_credential castLegacy decoded db req) = db) /\
  (status (snd (delete_user_assign castLegacy decoded db req)) <> 200 ->
     fst (delete_user_assign castLegacy decoded db req) = db) /\
  (status (snd (put_user_role castLegacy decoded db req)) <> 200 ->
     fst (put_user_role castLegacy decoded db req) = db).
Proof.
  unfold post_register, post_division_credentials, put_division_credential,
    delete_user_assign, put_user_role.
  repeat apply conj; handler_cases; intros Hs; first [reflexivity | now destruct Hs].
Qed.
End Writes.

Lemma failures_write_nothing_witness :
  fst (post_register Demo.sign Demo.hash 7 (Demo.oid Demo.u4) Demo.db
         (Demo.request "" "" "" [("name", "Al"); ("email", "alice@example.com");
                                 ("password", "pw")])) = Demo.db.
Proof.
  apply (proj1 (failures_write_nothing Demo.legacy Demo.sign Demo.hash 7
                  (Demo.oid Demo.u4) Demo.alice_claims Demo.db
                  (Demo.request "" "" "" [("name", "Al"); ("email", "alice@example.com");
                                          ("password", "pw")]))).
  vm_compute. discriminate.
Defined.

(** ** Writes to the user collection *)

Section UserSaveLemmas.
Variable castLegacy : string -> option ObjectId.

Lemma User_save_split (db : DB) (s : string) (user user' : User) :
  User_findById castLegacy db s = Doc user -> u_id user' = u_id user ->
  exists before after,
    users db = (before ++ user :: after)%list /\
    existsb (has_user_id (u_id user)) before = false /\
    users (User_save user' db) = (before ++ user' :: after)%list.
Proof.
  intros Hf Hid. apply User_findById_Doc in Hf as [_ Hf].
  unfold User_save. cbn [users]. rewrite Hid. now apply save_doc_split.
Qed.


Lemma getCurrentUser_role_saved (db : DB) (s : string) (user user' current : User)
    (c : Claims) :
  User_findById castLegacy db s = Doc user -> u_id user' = u_id user ->
  u_role user' = u_role user ->
  getCurrentUser castLegacy db c = Doc current ->
  exists current', getCurrentUser castLegacy (User_save user' db) c = Doc current' /\
                   u_role current' = u_role current.
Proof.
  intros Hf Hid Hrole Hcur.
  apply getCurrentUser_Doc in Hcur as [Hne Hcur].
  pose proof (User_findById_Doc _ _ _ _ Hf) as [_ Hfu].
  pose proof (User_findById_Doc _ _ _ _ Hcur) as [Hcc Hfc].
  unfold getCurrentUser. destruct (String.eqb_spec (tok_id c) ""); [contradiction|].
  destruct (oid_eqb (u_id current) (u_id user)) eqn:E.
  - apply oid_eqb_eq in E. rewrite E in Hfc, Hcc. assert (current = user) by congruence.
    subst current. exists user'. split; [|exact Hrole].
    now apply (User_findById_saved castLegacy db _ user).
  - exists current. split; [|reflexivity].
    unfold User_findById, User_save. rewrite Hcc. cbn [users]. apply of_option_Doc.
    rewrite find_save_other; [exact Hfc | |].
    + intros x Hx. unfold has_user_id in *. apply oid_eqb_eq in Hx.
      rewrite Hx, Hid. apply oid_eqb_neq. apply oid_eqb_neq in E. congruence.
    + unfold has_user_id. rewrite Hid. apply oid_eqb_neq. apply oid_eqb_neq in E.
      congruence.
Qed.
End UserSaveLemmas.

Section UserWrites.
Variable castLegacy : string -> option ObjectId.

(** X7: a successful assign, unassign or role change rewrites exactly one
    user document: the first one whose id is the id the route's text casts
    to. Every other document of the collection stays where and what it
    was, and the rewritten one keeps its id, name, email and password hash.
    Assign and unassign keep its role; a role change keeps its assignment
    and stores the role named in the body. *)
Theorem user_writes_touch_only_target (decoded : Claims) (db : DB) (req : Request) :
  let touched (db' : DB) (user user' : User) :=
    castObjectId castLegacy (param_id req) = Some (u_id user) /\
    exists before after,
      users db = (before ++ user :: after)%list /\
      existsb (has_user_id (u_id user)) before = false /\
      users db' = (before ++ user' :: after)%list /\
      same_account user user' in
  (status (snd (post_user_assign castLegacy decoded db req)) = 200 ->
     exists user user',
       touched (fst (post_user_assign castLegacy decoded db req)) user user' /\
       u_role user' = u_role user) /\
  (status (snd (delete_user_assign castLegacy decoded db req)) = 200 ->
     exists user user',
       touched (fst (delete_user_assign castLegacy decoded db req)) user user' /\
       u_role user' = u_role user /\ u_ou user' = None /\ u_division user' = None) /\
  (status (snd (put_user_role castLegacy decoded db req)) = 200 ->
     exists user user',
       touched (fst (put_user_role castLegacy decoded db req)) user user' /\
       u_ou user' = u_ou user /\ u_division user' = u_division user /\
       body req !! "role" = Some (role_name (u_role user'))).
Proof.
  intros touched. subst touched.
  unfold post_user_assign, delete_user_assign, put_user_role.
  repeat apply conj; handler_cases; intros Hs; try discriminate Hs;
    match goal with
    | H : User_findById castLegacy db (param_id req) = Doc ?u
      |- context [User_save ?u' db] =>
        destruct (User_save_split castLegacy db (param_id req) u u' H eq_refl)
          as (bef & aft & Hbef & Hfirst & Haft);
        apply User_findById_Doc in H as [Hcast _];
        exists u, u'; split;
          [split; [exact Hcast | exists bef, aft; repeat split; assumption]|]
    end.
  - reflexivity.
  - repeat split; reflexivity.
  - repeat split. cbn [set_role u_role].
    match goal with
    | Hinc : negb (includes allowed ?s) = false, Hr : role_of_name _ = Some _ |- _ =>
        apply negb_false_iff in Hinc;
        destruct (role_of_name_includes s Hinc) as (r' & Hr' & <-);
        cbn [default from_option id] in Hr; congruence
    end.
Qed.

(** X8: unassigning is idempotent: repeating a successful unassign request
    gives the same answer and leaves the store exactly as the first one
    left it. *)
Theorem unassign_idempotent (decoded : Claims) (db : DB) (req : Request) :
  status (snd (delete_user_assign castLegacy decoded db req)) = 200 ->
  delete_user_assign castLegacy decoded
    (fst (delete_user_assign castLegacy decoded db req)) req
  = delete_user_assign castLegacy decoded db req.
Proof.
  unfold delete_user_assign.
  destruct (getCurrentUser castLegacy db decoded) as [| |current] eqn:Hcur;
    [discriminate..|].
  destruct (role_eqb (u_role current) normal) eqn:Hrole; [discriminate|].
  destruct (User_findById castLegacy db (param_id req)) as [| |user] eqn:Huser;
    [discriminate..|].
  intros _. cbn [fst].
  set (user' := set_assignment user None None).
  destruct (getCurrentUser_role_saved castLegacy db (param_id req) user user' current
              decoded Huser eq_refl eq_refl Hcur) as (current' & -> & ->).
  rewrite Hrole.
  pose proof (User_findById_saved castLegacy db (param_id req) user user' Huser eq_refl)
    as Hsaved.
  rewrite Hsaved.
  change (set_assignment user' None None) with user'.
  f_equal. apply User_findById_Doc in Hsaved as [_ Hsaved].
  unfold User_save at 1. rewrite (save_doc_same _ _ _ Hsaved).
  now destruct (User_save user' db).
Qed.




(** X12: no operation on users leaves a half assignment behind: if every
    stored user has both references or neither, the same holds after
    registering, unassigning and changing a role. *)
Theorem user_operations_keep_pairs (jwt_sign : nat -> Claims -> string)
    (bcrypt_hash : string -> string) (now : nat) (fresh : ObjectId) (decoded : Claims)
    (db : DB) (req : Request) :
  (forall u, In u (users db) -> paired u) ->
  (forall u, In u (users (fst (post_register jwt_sign bcrypt_hash now fresh db req))) ->
     paired u) /\
  (forall u, In u (users (fst (delete_user_assign castLegacy decoded db req))) ->
     paired u) /\
  (forall u, In u (users (fst (put_user_role castLegacy decoded db req))) -> paired u).
Proof.
  intros Hall. unfold post_register, delete_user_assign, put_user_role.
  repeat apply conj; handler_cases; intros x Hx; auto.
  - apply in_app_or in Hx as [Hx | [<- | []]]; [auto|]. left. split; reflexivity.
  - apply save_doc_In in Hx as [-> | Hx]; [|auto]. left. split; reflexivity.
  - apply save_doc_In in Hx as [-> | Hx]; [|auto].
    match goal with
    | H : User_findById castLegacy db _ = Doc ?y |- _ =>
        apply User_findById_Doc in H as [_ H]; apply find_doc_In in H;
        apply Hall in H; exact H
    end.
Qed.
End UserWrites.

Lemma user_writes_touch_only_target_witness :
  exists user user',
    (castObjectId Demo.legacy Demo.u1 = Some (u_id user) /\
     exists before after,
       users Demo.db = (before ++ user :: after)%list /\
       existsb (has_user_id (u_id user)) before = false /\
       users (fst (delete_user_assign Demo.legacy Demo.bob_claims Demo.db
                     (Demo.request "" Demo.u1 "" [])))
       = (before ++ user' :: after)%list /\
       same_account user user') /\
    u_role user' = u_role user /\ u_ou user' = None /\ u_division user' = None.
Proof.
  apply (proj1 (proj2 (user_writes_touch_only_target Demo.legacy Demo.bob_claims Demo.db
                         (Demo.request "" Demo.u1 "" [])))).
  vm_compute. reflexivity.
Defined.

Lemma unassign_idempotent_witness :
  delete_user_assign Demo.legacy Demo.bob_claims
    (fst (delete_user_assign Demo.legacy Demo.bob_claims Demo.db
            (Demo.request "" Demo.u1 "" [])))
    (Demo.request "" Demo.u1 "" [])
  = delete_user_assign Demo.legacy Demo.bob_claims Demo.db (Demo.request "" Demo.u1 "" []).
Proof.
  apply (unassign_idempotent Demo.legacy Demo.bob_claims Demo.db
           (Demo.request "" Demo.u1 "" [])).
  vm_compute. reflexivity.
Defined.




Lemma user_operations_keep_pairs_witness :
  paired (set_assignment Demo.alice None None).
Proof.
  apply (proj1 (proj2 (user_operations_keep_pairs Demo.legacy Demo.sign Demo.hash 7
                         (Demo.oid Demo.u4) Demo.bob_claims Demo.db
                         (Demo.request "" Demo.u1 "" [])
                         ltac:(intros u [<- | [<- | [<- | []]]];
                               [right; exists (Demo.oid Demo.ou1), (Demo.oid Demo.d1);
                                split; reflexivity
                               |left; split; reflexivity
                               |left; split; reflexivity])))).
  vm_compute. left. reflexivity.
Defined.

(** ** Accounts *)

Lemma NoDup_snoc {A : Type} (l : list A) (x : A) :
  List.NoDup l -> ~ In x l -> List.NoDup (l ++ [x]).
Proof.
  induction l as [|a rest IH]; simpl; intros Hnd Hx.
  - constructor; [intros [] | constructor].
  - inversion Hnd as [|? ? Ha Hrest]; subst. constructor.
    + rewrite in_app_iff. simpl. intros [H | [H | []]]; [tauto|]. apply Hx. now left.
    + apply IH; [assumption|]. intros H. apply Hx. now right.
Qed.

Lemma unknown_email_not_stored (db : DB) (e : string) :
  User_findOne_email db (Some e) = None -> ~ In e (map u_email (users db)).
Proof.
  unfold User_findOne_email. intros H Hin. apply find_doc_None in H.
  apply in_map_iff in Hin as (u & <- & Hu).
  assert (existsb (fun v => String.eqb (u_email v) (u_email u)) (users db) = true).
  { apply existsb_exists. exists u. split; [exact Hu | apply String.eqb_refl]. }
  congruence.
Qed.

Lemma User_save_emails (castLegacy : string -> option ObjectId) (db : DB) (s : string)
    (user user' : User) :
  User_findById castLegacy db s = Doc user -> u_id user' = u_id user ->
  u_email user' = u_email user ->
  map u_email (users (User_save user' db)) = map u_email (users db).
Proof.
  intros Hf Hid He. apply User_findById_Doc in Hf as [_ Hf].
  unfold User_save. cbn [users]. rewrite Hid.
  now apply (map_save_doc u_email _ _ user).
Qed.

Section AccountsMore.
Variable castLegacy : string -> option ObjectId.
Variable jwt_sign : nat -> Claims -> string.
Variable bcrypt_hash : string -> string.
Variable bcrypt_compare : option string -> string -> option bool.

(** What a successful registration did. *)
Lemma register_success (now : nat) (fresh : ObjectId) (db : DB) (req : Request) :
  status (snd (post_register jwt_sign bcrypt_hash now fresh db req)) = 201 ->
  exists name email password,
    body req !! "name" = Some name /\ body req !! "email" = Some email /\
    body req !! "password" = Some password /\
    User_findOne_email db (Some email) = None /\
    post_register jwt_sign bcrypt_hash now fresh db req
    = (let user := mkUser fresh name email (bcrypt_hash password) normal None None in
       (User_insert user db,
        mkResponse 201 (JObj [("message", JStr "Registered");
                              ("token", JStr (jwt_sign now (claims_of user)));
                              ("user", publicUser user)]))).
Proof.
  unfold post_register.
  destruct (negb (truthy (body req !! "name")) || negb (truthy (body req !! "email"))
            || negb (truthy (body req !! "password"))) eqn:Hreq; [discriminate|].
  apply orb_false_elim in Hreq as [Hreq Hp]. apply orb_false_elim in Hreq as [Hn He].
  apply negb_false_iff, truthy_true in Hn as (name & -> & _).
  apply negb_false_iff, truthy_true in He as (email & -> & _).
  apply negb_false_iff, truthy_true in Hp as (password & -> & _).
  destruct (User_findOne_email db (Some email)) eqn:Hfree; [discriminate|].
  intros _. exists name, email, password. repeat split. exact Hfree.
Qed.

(** X13: an email registers once: after a successful registration, any
    further registration with the same email, whatever name, password and
    fresh id it brings, is answered 409 'Email already registered' and
    writes nothing. *)
Theorem email_registers_once (now now' : nat) (fresh fresh' : ObjectId) (db : DB)
    (req req' : Request) :
  status (snd (post_register jwt_sign bcrypt_hash now fresh db req)) = 201 ->
  body req' !! "email" = body req !! "email" ->
  truthy (body req' !! "name") = true -> truthy (body req' !! "password") = true ->
  let db' := fst (post_register jwt_sign bcrypt_hash now fresh db req) in
  post_register jwt_sign bcrypt_hash now' fresh' db' req'
  = (db', json_error 409 "Email already registered").
Proof.
  intros Hok Hemail Hname Hpw.
  destruct (register_success now fresh db req Hok)
    as (name & email & password & Hn & He & Hp & Hfree & ->).
  cbn [fst]. unfold post_register at 1. rewrite Hemail, He, Hname, Hpw.
  assert (Ht : truthy (Some email) = true).
  { unfold post_register in Hok. rewrite He in Hok.
    destruct (truthy (Some email)); [reflexivity|].
    rewrite orb_true_r in Hok. discriminate. }
  rewrite Ht. cbn [negb orb].
  unfold User_findOne_email, User_insert in *. cbn [users].
  rewrite find_doc_app, Hfree. cbn [u_email]. now rewrite String.eqb_refl.
Qed.

(** X14: register, then log in: provided [bcrypt.compare] accepts a password
    against the hash [bcrypt.hash] made of it, a login with the email and
    password just registered is answered 200 with the same user projection
    as the registration, and its token is signed over the same claims as
    the registration's token, each at its own time. *)
Theorem register_then_login (now now' : nat) (fresh : ObjectId) (db : DB)
    (req req' : Request) :
  (forall p, bcrypt_compare (Some p) (bcrypt_hash p) = Some true) ->
  status (snd (post_register jwt_sign bcrypt_hash now fresh db req)) = 201 ->
  body req' !! "email" = body req !! "email" ->
  body req' !! "password" = body req !! "password" ->
  let registered := post_register jwt_sign bcrypt_hash now fresh db req in
  let logged := post_login jwt_sign bcrypt_compare now' (fst registered) req' in
  status (snd logged) = 200 /\
  field "user" (payload (snd logged)) = field "user" (payload (snd registered)) /\
  exists claims,
    tok_id claims = oid_text fresh /\ tok_role claims = "normal" /\
    Some (tok_email claims) = body req !! "email" /\
    field "token" (payload (snd registered)) = Some (JStr (jwt_sign now claims)) /\
    field "token" (payload (snd logged)) = Some (JStr (jwt_sign now' claims)).
Proof.
  intros Hbc Hok Hemail Hpw registered logged. subst registered logged.
  destruct (register_success now fresh db req Hok)
    as (name & email & password & Hn & He & Hp & Hfree & ->).
  cbn [fst snd]. unfold post_login. rewrite Hemail, Hpw, He, Hp.
  unfold User_findOne_email, User_insert in *. cbn [users].
  rewrite find_doc_app, Hfree. cbn [u_email]. rewrite String.eqb_refl.
  cbn [u_passwordHash]. rewrite Hbc. split; [reflexivity|]. split; [reflexivity|].
  exists (claims_of (mkUser fresh name email (bcrypt_hash password) normal None None)).
  split; [reflexivity|]. split; [reflexivity|]. split; [reflexivity|].
  split; reflexivity.
Qed.

(** X15: emails stay unique: if no two stored users share an email, the same
    is true after a registration, an assignment, an unassignment and a role
    change. *)
Theorem emails_stay_unique (now : nat) (fresh : ObjectId) (decoded : Claims) (db : DB)
    (req : Request) :
  List.NoDup (map u_email (users db)) ->
  List.NoDup (map u_email
                (users (fst (post_register jwt_sign bcrypt_hash now fresh db req)))) /\
  List.NoDup (map u_email (users (fst (post_user_assign castLegacy decoded db req)))) /\
  List.NoDup (map u_email (users (fst (delete_user_assign castLegacy decoded db req)))) /\
  List.NoDup (map u_email (users (fst (put_user_role castLegacy decoded db req)))).
Proof.
  intros Hnd. split.
  - destruct (Nat.eq_dec
                (status (snd (post_register jwt_sign bcrypt_hash now fresh db req))) 201)
      as [Hok | Hfail].
    + destruct (register_success now fresh db req Hok)
        as (name & email & password & _ & _ & _ & Hfree & ->).
      cbn [fst User_insert users]. rewrite map_app. cbn [map u_email].
      apply NoDup_snoc; [exact Hnd | now apply unknown_email_not_stored].
    + revert Hfail. unfold post_register. handler_cases; intros Hfail;
        first [exact Hnd | now destruct Hfail].
  - unfold post_user_assign, delete_user_assign, put_user_role.
    repeat apply conj; handler_cases; try exact Hnd;
      match goal with
      | H : User_findById castLegacy db _ = Doc ?u |- context [User_save ?u' db] =>
          rewrite (User_save_emails castLegacy db _ u u' H eq_refl eq_refl); exact Hnd
      end.
Qed.
End AccountsMore.

Lemma email_registers_once_witness :
  post_register Demo.sign Demo.hash 9 (Demo.oid Demo.u5)
    (fst (post_register Demo.sign Demo.hash 7 (Demo.oid Demo.u4) Demo.db
            (Demo.request "" "" "" [("name", "Dave"); ("email", "dave@example.com");
                                    ("password", "pw")])))
    (Demo.request "" "" "" [("name", "David"); ("email", "dave@example.com");
                            ("password", "other")])
  = (fst (post_register Demo.sign Demo.hash 7 (Demo.oid Demo.u4) Demo.db
            (Demo.request "" "" "" [("name", "Dave"); ("email", "dave@example.com");
                                    ("password", "pw")])),
     json_error 409 "Email already registered").
Proof.
  apply (email_registers_once Demo.sign Demo.hash 7 9 (Demo.oid Demo.u4)
           (Demo.oid Demo.u5) Demo.db
           (Demo.request "" "" "" [("name", "Dave"); ("email", "dave@example.com");
                                   ("password", "pw")])
           (Demo.request "" "" "" [("name", "David"); ("email", "dave@example.com");
                                   ("password", "other")])).
  - vm_compute. reflexivity.
  - vm_compute. reflexivity.
  - vm_compute. reflexivity.
  - vm_compute. reflexivity.
Defined.

Lemma register_then_login_witness :
  status (snd (post_login Demo.sign Demo.compare 9
                 (fst (post_register Demo.sign Demo.hash 7 (Demo.oid Demo.u4) Demo.db
                         (Demo.request "" "" "" [("name", "Dave");
                                                 ("email", "dave@example.com");
                                                 ("password", "pw")])))
                 (Demo.request "" "" "" [("email", "dave@example.com");
                                         ("password", "pw")]))) = 200.
Proof.
  apply (register_then_login Demo.sign Demo.hash Demo.compare 7 9 (Demo.oid Demo.u4)
           Demo.db
           (Demo.request "" "" "" [("name", "Dave"); ("email", "dave@example.com");
                                   ("password", "pw")])
           (Demo.request "" "" "" [("email", "dave@example.com"); ("password", "pw")])).
  - intros p. unfold Demo.compare. now rewrite String.eqb_refl.
  - vm_compute. reflexivity.
  - vm_compute. reflexivity.
  - vm_compute. reflexivity.
Defined.

Lemma emails_stay_unique_witness :
  List.NoDup (map u_email
           (users (fst (post_register Demo.sign Demo.hash 7 (Demo.oid Demo.u4) Demo.db
                          (Demo.request "" "" "" [("name", "Dave");
                                                  ("email", "dave@example.com");
                                                  ("password", "pw")]))))).
Proof.
  apply (emails_stay_unique Demo.legacy Demo.sign Demo.hash 7 (Demo.oid Demo.u4)
           Demo.alice_claims Demo.db
           (Demo.request "" "" "" [("name", "Dave"); ("email", "dave@example.com");
                                   ("password", "pw")])).
  apply distinct_NoDup. vm_compute. reflexivity.
Defined.

(** ** The credential repository, continued *)

Lemma ensureDivisionAccess_OU_save (castLegacy : string -> option ObjectId) (db : DB)
    (o : OU) (c : Claims) (req : Request) :
  ensureDivisionAccess castLegacy (OU_save o db) c req
  = ensureDivisionAccess castLegacy db c req.
Proof. reflexivity. Qed.

Lemma find_by_unique_key {A : Type} (key : A -> ObjectId) (l : list A) (x : A) :
  List.NoDup (map key l) -> In x l ->
  find_doc (fun y => oid_eqb (key y) (key x)) l = Some x.
Proof.
  induction l as [|a rest IH]; simpl; [tauto|].
  intros Hnd [-> | Hin]; [now rewrite oid_eqb_refl|].
  inversion Hnd as [|? ? Ha Hrest]; subst.
  destruct (oid_eqb (key a) (key x)) eqn:E; [|auto].
  apply oid_eqb_eq in E. exfalso. apply Ha. rewrite E. now apply in_map.
Qed.

Section Repository.
Variable castLegacy : string -> option ObjectId.

(** X16: adding appends: a successful add leaves the division with its
    former credentials followed by one new credential that carries the
    three fields of the body; the answer lists exactly that, and so does
    the same caller's next read of the division. *)
Theorem add_appends_and_read_shows_it (fresh : ObjectId) (decoded : Claims) (db : DB)
    (req : Request) :
  let added := post_division_credentials castLegacy fresh decoded db req in
  status (snd added) = 201 ->
  exists ou division system username password ou' division',
    OU_findOne_division castLegacy db (param_id req) = Doc ou /\
    divisions_id castLegacy ou (param_id req) = Some division /\
    body req !! "system" = Some system /\ body req !! "username" = Some username /\
    body req !! "password" = Some password /\
    OU_findOne_division castLegacy (fst added) (param_id req) = Doc ou' /\
    divisions_id castLegacy ou' (param_id req) = Some division' /\
    d_credentials division'
    = (d_credentials division ++ [mkCredential fresh system username password])%list /\
    field "credentials" (payload (snd added))
    = Some (JArr (map json_credential (d_credentials division'))) /\
    snd (get_division_credentials castLegacy decoded (fst added) req)
    = mkResponse 200
        (JObj [("division", JObj [("id", JStr (oid_text (d_id division)));
                                  ("name", JStr (d_name division))]);
               ("credentials", JArr (map json_credential (d_credentials division')))]).
Proof.
  intros added. subst added. unfold post_division_credentials.
  destruct (ensureDivisionAccess castLegacy db decoded req) as [|sent|current] eqn:Hacc.
  { discriminate. }
  { unfold ensureDivisionAccess in Hacc. handler_cases; discriminate. }
  destruct (negb (truthy (body req !! "system")) || negb (truthy (body req !! "username"))
            || negb (truthy (body req !! "password"))) eqn:Hreq; [discriminate|].
  apply orb_false_elim in Hreq as [Hreq Hp]. apply orb_false_elim in Hreq as [Hs Hu].
  apply negb_false_iff, truthy_true in Hs as (system & -> & _).
  apply negb_false_iff, truthy_true in Hu as (username & -> & _).
  apply negb_false_iff, truthy_true in Hp as (password & -> & _).
  destruct (OU_findOne_division castLegacy db (param_id req)) as [| |ou] eqn:Hou;
    [discriminate | discriminate |].
  destruct (divisions_id castLegacy ou (param_id req)) as [division|] eqn:Hdiv;
    [|discriminate].
  intros _. cbn [fst snd payload default from_option id].
  set (division' := mkDivision (d_id division) (d_name division)
                      (d_credentials division
                       ++ [mkCredential fresh system username password])).
  assert (Hdiv' : divisions_id castLegacy (with_division ou division') (param_id req)
                  = Some division').
  { now apply (divisions_id_with_division castLegacy ou _ division). }
  assert (Hou' : OU_findOne_division castLegacy (OU_save (with_division ou division') db)
                   (param_id req)
                 = Doc (with_division ou division')).
  { eapply OU_findOne_division_saved; [exact Hou | reflexivity | exact Hdiv']. }
  exists ou, division, system, username, password, (with_division ou division'), division'.
  split; [first [reflexivity | exact Hou]|]. split; [first [reflexivity | exact Hdiv]|].
  split; [reflexivity|]. split; [reflexivity|]. split; [reflexivity|].
  split; [exact Hou'|]. split; [exact Hdiv'|]. split; [reflexivity|].
  split; [reflexivity|].
  unfold get_division_credentials.
  now rewrite ensureDivisionAccess_OU_save, Hacc, Hou', Hdiv'.
Qed.

(** X17: an update by a management or admin caller whose division id cannot
    be cast to an ObjectId is answered 500 'Server error'; one whose
    division id can be cast but is the id of no division of any unit is
    answered 404 'Division not found'; and one whose credential id cannot
    be cast, or is the id of no credential of the division, is answered 404
    'Credential not found'. None of them writes anything. *)
Theorem update_of_missing_target (decoded : Claims) (db : DB) (req : Request)
    (current : User) :
  getCurrentUser castLegacy db decoded = Doc current -> u_role current <> normal ->
  (castObjectId castLegacy (param_id req) = None ->
     put_division_credential castLegacy decoded db req = (db, server_error)) /\
  (forall sought,
     castObjectId castLegacy (param_id req) = Some sought ->
     (forall ou d, In ou (ous db) -> In d (o_divisions ou) -> d_id d <> sought) ->
     put_division_credential castLegacy decoded db req
     = (db, json_error 404 "Division not found")) /\
  (forall ou division,
     OU_findOne_division castLegacy db (param_id req) = Doc ou ->
     divisions_id castLegacy ou (param_id req) = Some division ->
     (forall c, In c (d_credentials division) ->
        castObjectId castLegacy (param_credId req) <> Some (c_id c)) ->
     put_division_credential castLegacy decoded db req
     = (db, json_error 404 "Credential not found")).
Proof.
  intros Hcur Hrole. unfold put_division_credential. rewrite Hcur.
  destruct (role_eqb (u_role current) normal) eqn:E;
    [apply role_eqb_eq in E; contradiction|].
  split; [|split].
  - intros Hc. unfold OU_findOne_division. now rewrite Hc.
  - intros sought Hc Hnone. unfold OU_findOne_division. rewrite Hc.
    rewrite find_doc_absent; [reflexivity|].
    intros ou Hou. destruct (existsb (has_division_id sought) (o_divisions ou)) eqn:Hex;
      [|reflexivity].
    apply existsb_exists in Hex as (d & Hd & Hk). apply oid_eqb_eq in Hk.
    now destruct (Hnone ou d Hou Hd).
  - intros ou division -> -> Hnone. unfold credentials_id.
    destruct (castObjectId castLegacy (param_credId req)) as [sought|] eqn:Hc;
      [|reflexivity].
    rewrite find_doc_absent; [reflexivity|].
    intros c Hin. apply oid_eqb_neq. intros Hk. apply (Hnone c Hin). now rewrite Hk.
Qed.

(** X18: credential writes keep the organisation chart: when the units'
    ids are unique, adding or updating a credential changes no unit id, no
    unit name, no division id and no division name, so the structure the
    panel loads is the same before and after. *)
Theorem credential_writes_keep_structure (fresh : ObjectId) (decoded : Claims) (db : DB)
    (req : Request) :
  List.NoDup (map o_id (ous db)) ->
  AdminPanel.loaded_structure (fst (post_division_credentials castLegacy fresh decoded db req))
  = AdminPanel.loaded_structure db /\
  AdminPanel.loaded_structure (fst (put_division_credential castLegacy decoded db req))
  = AdminPanel.loaded_structure db.
Proof.
  intros Hnd.
  assert (Hkeep : forall ou division division',
             OU_findOne_division castLegacy db (param_id req) = Doc ou ->
             divisions_id castLegacy ou (param_id req) = Some division ->
             d_id division' = d_id division -> d_name division' = d_name division ->
             AdminPanel.loaded_structure (OU_save (with_division ou division') db)
             = AdminPanel.loaded_structure db).
  { intros ou division division' Hou Hdiv Hid Hname.
    apply OU_findOne_division_Doc in Hou as (sought & _ & Hou).
    apply divisions_id_Some in Hdiv as [_ Hdiv].
    unfold AdminPanel.loaded_structure, OU_save. cbn [ous].
    change (o_id (with_division ou division')) with (o_id ou).
    apply (map_save_doc _ _ _ ou).
    - apply (find_by_unique_key o_id _ ou); [exact Hnd | eapply find_doc_In; exact Hou].
    - unfold with_division. cbn [o_id o_name o_divisions]. f_equal.
      rewrite Hid.
      apply (map_save_doc _ _ _ division); [exact Hdiv | now rewrite Hid, Hname]. }
  unfold post_division_credentials, put_division_credential.
  split; handler_cases; try reflexivity; eapply Hkeep; eauto.
Qed.
End Repository.

Lemma add_appends_and_read_shows_it_witness :
  exists ou division system username password ou' division',
    OU_findOne_division Demo.legacy Demo.db Demo.d2 = Doc ou /\
    divisions_id Demo.legacy ou Demo.d2 = Some division /\
    body (Demo.request "" Demo.d2 "" [("system", "crm"); ("username", "ops");
                                      ("password", "pw")]) !! "system" = Some system /\
    body (Demo.request "" Demo.d2 "" [("system", "crm"); ("username", "ops");
                                      ("password", "pw")]) !! "username" = Some username /\
    body (Demo.request "" Demo.d2 "" [("system", "crm"); ("username", "ops");
                                      ("password", "pw")]) !! "password" = Some password /\
    OU_findOne_division Demo.legacy
      (fst (post_division_credentials Demo.legacy (Demo.oid Demo.c9) Demo.bob_claims Demo.db
              (Demo.request "" Demo.d2 "" [("system", "crm"); ("username", "ops");
                                           ("password", "pw")]))) Demo.d2 = Doc ou' /\
    divisions_id Demo.legacy ou' Demo.d2 = Some division' /\
    d_credentials division'
    = (d_credentials division
       ++ [mkCredential (Demo.oid Demo.c9) system username password])%list /\
    field "credentials"
      (payload (snd (post_division_credentials Demo.legacy (Demo.oid Demo.c9)
                       Demo.bob_claims Demo.db
                       (Demo.request "" Demo.d2 "" [("system", "crm"); ("username", "ops");
                                                    ("password", "pw")]))))
    = Some (JArr (map json_credential (d_credentials division'))) /\
    snd (get_division_credentials Demo.legacy Demo.bob_claims
           (fst (post_division_credentials Demo.legacy (Demo.oid Demo.c9) Demo.bob_claims
                   Demo.db
                   (Demo.request "" Demo.d2 "" [("system", "crm"); ("username", "ops");
                                                ("password", "pw")])))
           (Demo.request "" Demo.d2 "" [("system", "crm"); ("username", "ops");
                                        ("password", "pw")]))
    = mkResponse 200
        (JObj [("division", JObj [("id", JStr (oid_text (d_id division)));
                                  ("name", JStr (d_name division))]);
               ("credentials", JArr (map json_credential (d_credentials division')))]).
Proof.
  apply (add_appends_and_read_shows_it Demo.legacy (Demo.oid Demo.c9) Demo.bob_claims
           Demo.db
           (Demo.request "" Demo.d2 "" [("system", "crm"); ("username", "ops");
                                        ("password", "pw")])).
  vm_compute. reflexivity.
Defined.

Lemma update_of_missing_target_witness :
  put_division_credential Demo.legacy Demo.bob_claims Demo.db
    (Demo.request "" "d404" Demo.c1 [("password", "n3w")])
  = (Demo.db, server_error) /\
  put_division_credential Demo.legacy Demo.bob_claims Demo.db
    (Demo.request "" Demo.d_none Demo.c1 [("password", "n3w")])
  = (Demo.db, json_error 404 "Division not found") /\
  put_division_credential Demo.legacy Demo.bob_claims Demo.db
    (Demo.request "" Demo.d2 "c404" [("password", "n3w")])
  = (Demo.db, json_error 404 "Credential not found").
Proof.
  split; [|split].
  - apply (update_of_missing_target Demo.legacy Demo.bob_claims Demo.db
             (Demo.request "" "d404" Demo.c1 [("password", "n3w")]) Demo.bob).
    + vm_compute. reflexivity.
    + discriminate.
    + vm_compute. reflexivity.
  - apply (proj1 (proj2 (update_of_missing_target Demo.legacy Demo.bob_claims Demo.db
                           (Demo.request "" Demo.d_none Demo.c1 [("password", "n3w")])
                           Demo.bob ltac:(vm_compute; reflexivity) ltac:(discriminate)))
             (Demo.oid Demo.d_none)).
    + vm_compute. reflexivity.
    + intros ou d [<- | [<- | []]]; simpl; intros Hd;
        repeat destruct Hd as [<- | Hd]; try destruct Hd; vm_compute; discriminate.
  - apply (proj2 (proj2 (update_of_missing_target Demo.legacy Demo.bob_claims Demo.db
                           (Demo.request "" Demo.d2 "c404" [("password", "n3w")])
                           Demo.bob ltac:(vm_compute; reflexivity) ltac:(discriminate)))
             Demo.news Demo.finance_division).
    + vm_compute. reflexivity.
    + vm_compute. reflexivity.
    + intros c [].
Defined.

Lemma credential_writes_keep_structure_witness :
  AdminPanel.loaded_structure
    (fst (put_division_credential Demo.legacy Demo.bob_claims Demo.db
            (Demo.request "" Demo.d1 Demo.c1 [("password", "n3w")])))
  = AdminPanel.loaded_structure Demo.db.
Proof.
  apply (credential_writes_keep_structure Demo.legacy (Demo.oid Demo.c9) Demo.bob_claims
           Demo.db (Demo.request "" Demo.d1 Demo.c1 [("password", "n3w")])).
  apply distinct_ids. vm_compute. reflexivity.
Defined.

(** ** The structure listings and seeding *)

Lemma structure_item_clean (k : string) (it : AdminPanel.StructureItem) :
  existsb (String.eqb k) ["ouId"; "ouName"; "divisions"; "divisionId"; "divisionName"]
  = false ->
  mentions_key k (AdminPanel.json_of_item it) = false.
Proof.
  intros Hk. cbn [existsb] in Hk.
  repeat (apply orb_false_elim in Hk as [? Hk]).
  unfold AdminPanel.json_of_item. cbn [mentions_key existsb fst snd].
  repeat match goal with
         | H : String.eqb k ?key = false |- context [String.eqb k ?key] => rewrite H
         end.
  cbn [orb]. rewrite orb_false_r.
  induction (AdminPanel.divisions it) as [|d rest IH]; [reflexivity|].
  cbn [map existsb mentions_key fst snd]. rewrite IH.
  match goal with
  | H1 : String.eqb k "divisionId" = false, H2 : String.eqb k "divisionName" = false |- _ =>
      now rewrite H1, H2
  end.
Qed.

Section Listings.
Variable jwt_verify : string -> JwtError + Claims.

(** X19: the two structure listings ask for a verified token and nothing
    more (no stored user, no role): both answer 200 with one item per unit,
    in order, holding the unit's id and name and the id and name of each of
    its divisions; no other key, in particular nothing of the credentials,
    appears in the payload. *)
Theorem structure_listing_shows_names_only (db : DB) (req : Request) (decoded : Claims) :
  authMiddleware jwt_verify req = inr decoded ->
  let listing :=
    (db, mkResponse 200
           (JObj [("items", JArr (map AdminPanel.json_of_item
                                      (AdminPanel.loaded_structure db)))])) in
  route_get_structure_ous jwt_verify db req = listing /\
  route_get_dev_divisions jwt_verify db req = listing /\
  (forall k,
     existsb (String.eqb k)
       ["items"; "ouId"; "ouName"; "divisions"; "divisionId"; "divisionName"] = false ->
     mentions_key k (payload (snd listing)) = false).
Proof.
  intros Hauth listing. subst listing.
  unfold route_get_structure_ous, route_get_dev_divisions, protected.
  rewrite Hauth. unfold get_structure_ous, get_dev_divisions.
  assert (Hitems : forall l,
             map AdminPanel.json_of_item
               (map (fun ou => AdminPanel.mkStructureItem (oid_text (o_id ou)) (o_name ou)
                                 (map (fun d => AdminPanel.mkDivisionItem (oid_text (d_id d))
                                                  (d_name d))
                                      (o_divisions ou))) l)
             = map (fun ou =>
                      JObj [("ouId", JStr (oid_text (o_id ou))); ("ouName", JStr (o_name ou));
                            ("divisions",
                             JArr (map (fun d => JObj [("divisionId", JStr (oid_text (d_id d)));
                                                       ("divisionName", JStr (d_name d))])
                                       (o_divisions ou)))]) l).
  { intros l. rewrite map_map. apply map_ext. intros ou.
    unfold AdminPanel.json_of_item. cbn. now rewrite map_map. }
  unfold AdminPanel.loaded_structure. rewrite Hitems.
  split; [reflexivity|]. split; [reflexivity|].
  intros k Hk. rewrite <- Hitems. cbn [snd payload mentions_key existsb fst].
  cbn [existsb] in Hk. apply orb_false_elim in Hk as [-> Hk]. cbn [orb].
  rewrite orb_false_r.
  induction (map _ (ous db)) as [|it rest IH]; [reflexivity|].
  cbn [map existsb]. rewrite IH, orb_false_r.
  apply structure_item_clean. cbn [existsb]. exact Hk.
Qed.
End Listings.

Lemma structure_listing_shows_names_only_witness :
  route_get_structure_ous Demo.verify Demo.db (Demo.request "alice-token" "" "" [])
  = (Demo.db,
     mkResponse 200
       (JObj [("items", JArr (map AdminPanel.json_of_item
                                  (AdminPanel.loaded_structure Demo.db)))])).
Proof.
  apply (structure_listing_shows_names_only Demo.verify Demo.db
           (Demo.request "alice-token" "" "" []) Demo.alice_claims).
  vm_compute. reflexivity.
Defined.

(** X20: seeding writes only into a store with no unit: on any other store
    it changes nothing, so it is idempotent; it never touches the users,
    and the unit it creates has two divisions with empty credential
    lists. *)
Theorem seedData_seeds_once (a b c a' b' c' : ObjectId) (db : DB) :
  (ous db <> [] -> seedData a b c db = db) /\
  seedData a' b' c' (seedData a b c db) = seedData a b c db /\
  users (seedData a b c db) = users db /\
  (ous db = [] ->
     exists ou, ous (seedData a b c db) = [ou] /\ o_id ou = a /\
       map d_id (o_divisions ou) = [b; c] /\
       forall d, In d (o_divisions ou) -> d_credentials d = []).
Proof.
  unfold seedData. repeat apply conj.
  - destruct (ous db); [intros H; now destruct H | reflexivity].
  - destruct (ous db) eqn:E; cbn [length Nat.eqb]; cbn [ous]; [|now rewrite E].
    reflexivity.
  - now destruct (ous db).
  - intros ->. cbn. eexists. repeat split.
    intros d [<- | [<- | []]]; reflexivity.
Qed.

Lemma seedData_seeds_once_witness :
  seedData (Demo.oid Demo.ou_none) (Demo.oid Demo.d_none) (Demo.oid Demo.c9) Demo.db
  = Demo.db.
Proof.
  apply (proj1 (seedData_seeds_once (Demo.oid Demo.ou_none) (Demo.oid Demo.d_none)
                  (Demo.oid Demo.c9) (Demo.oid Demo.ou_none) (Demo.oid Demo.d_none)
                  (Demo.oid Demo.c9) Demo.db)).
  discriminate.
Defined.

(** ** The admin panel against the server *)

Lemma authMiddleware_bearer (jwt_verify : string -> JwtError + Claims) (req : Request)
    (t : string) (decoded : Claims) :
  headers req !! "authorization" = Some ("Bearer " +:+ t) ->
  t <> "" -> has_space t = false -> jwt_verify t = inr decoded ->
  authMiddleware jwt_verify req = inr decoded.
Proof.
  intros Hh Ht Hsp Hv. unfold authMiddleware. rewrite Hh.
  rewrite truthy_Some by discriminate. cbn [negb default from_option id].
  rewrite (split_bearer t Hsp). cbn [nth_error].
  rewrite bool_decide_eq_true_2 by reflexivity.
  rewrite (truthy_Some t Ht). cbn [negb orb default from_option id].
  now rewrite Hv.
Qed.

Lemma panel_option_owner (structure : list AdminPanel.StructureItem)
    (opt : AdminPanel.PanelOption) :
  In opt (AdminPanel.options structure) ->
  exists ou d, In ou structure /\ In d (AdminPanel.divisions ou) /\
    AdminPanel.value opt = AdminPanel.divisionId d /\
    AdminPanel.opt_ouId opt = AdminPanel.ouId ou.
Proof.
  unfold AdminPanel.options. intros H.
  apply in_flat_map in H as (ou & Hou & H).
  apply in_map_iff in H as (d & <- & Hd). exists ou, d. repeat split; assumption.
Qed.

Lemma loaded_item_unit (db : DB) (it : AdminPanel.StructureItem)
    (d : AdminPanel.DivisionItem) :
  In it (AdminPanel.loaded_structure db) -> In d (AdminPanel.divisions it) ->
  exists ou division, In ou (ous db) /\ In division (o_divisions ou) /\
    AdminPanel.ouId it = oid_text (o_id ou) /\
    AdminPanel.divisionId d = oid_text (d_id division).
Proof.
  unfold AdminPanel.loaded_structure. intros Hit Hd.
  apply in_map_iff in Hit as (ou & <- & Hou). cbn in Hd.
  apply in_map_iff in Hd as (division & <- & Hdiv).
  exists ou, division. repeat split; assumption.
Qed.

Lemma onAssign_sent (token : string) (structure : list AdminPanel.StructureItem)
    (userId selectedDiv : string) (req : Request) :
  AdminPanel.onAssign token structure userId selectedDiv = Some req ->
  selectedDiv <> "" /\ param_id req = userId /\
  headers req !! "authorization" = Some ("Bearer " +:+ token) /\
  body req !! "divisionId" = Some selectedDiv /\
  exists ou d, In ou structure /\ In d (AdminPanel.divisions ou) /\
    AdminPanel.divisionId d = selectedDiv /\
    body req !! "ouId" = Some (AdminPanel.ouId ou).
Proof.
  unfold AdminPanel.onAssign.
  destruct (String.eqb_spec selectedDiv "") as [-> | Hsel]; [discriminate|].
  destruct (find_doc _ (AdminPanel.options structure)) as [opt|] eqn:Hfind;
    [|discriminate].
  intros [= <-].
  pose proof (find_doc_holds _ _ _ Hfind) as Hval. apply String.eqb_eq in Hval.
  apply find_doc_In, panel_option_owner in Hfind as (ou & d & Hou & Hd & Hv & Ho).
  unfold AdminPanel.assign. cbn [param_id headers body].
  split; [assumption|]. split; [reflexivity|].
  split; [apply lookup_singleton_eq|].
  split; [rewrite lookup_insert_ne by discriminate; apply lookup_insert_eq|].
  exists ou, d. split; [assumption|]. split; [assumption|].
  split; [congruence|]. rewrite Ho. apply lookup_insert_eq.
Qed.

Section Panel.
Variable castLegacy : string -> option ObjectId.
Variable jwt_verify : string -> JwtError + Claims.

(** X21: the request the panel's Assign button sends names a division of
    the loaded structure together with a unit that lists it: the unit of
    the first option with that division id; with no selection, or a
    selection outside the options, nothing is sent. *)
Theorem panel_assign_names_owning_unit (token : string)
    (structure : list AdminPanel.StructureItem) (userId selectedDiv : string) :
  match AdminPanel.onAssign token structure userId selectedDiv with
  | Some req =>
      selectedDiv <> "" /\ param_id req = userId /\
      headers req !! "authorization" = Some ("Bearer " +:+ token) /\
      body req !! "divisionId" = Some selectedDiv /\
      exists ou d, In ou structure /\ In d (AdminPanel.divisions ou) /\
        AdminPanel.divisionId d = selectedDiv /\
        body req !! "ouId" = Some (AdminPanel.ouId ou)
  | None =>
      selectedDiv = "" \/
      forall ou d, In ou structure -> In d (AdminPanel.divisions ou) ->
        AdminPanel.divisionId d <> selectedDiv
  end.
Proof.
  unfold AdminPanel.onAssign.
  destruct (String.eqb_spec selectedDiv "") as [-> | Hsel]; [now left|].
  destruct (find_doc _ (AdminPanel.options structure)) as [opt|] eqn:Hfind.
  - apply (onAssign_sent token structure userId selectedDiv).
    unfold AdminPanel.onAssign. rewrite Hfind.
    now destruct (String.eqb_spec selectedDiv "").
  - right. intros ou d Hou Hd Heq.
    apply find_doc_None in Hfind.
    assert (Hin : existsb (fun o => String.eqb (AdminPanel.value o) selectedDiv)
                    (AdminPanel.options structure) = true); [|congruence].
    apply existsb_exists.
    exists (AdminPanel.mkPanelOption (AdminPanel.divisionId d)
              (AdminPanel.ouName ou +:+ " / " +:+ AdminPanel.divisionName d)
              (AdminPanel.ouId ou)).
    split; [|now apply String.eqb_eq].
    unfold AdminPanel.options. apply in_flat_map. exists ou. split; [assumption|].
    apply in_map_iff. exists d. split; [reflexivity | assumption].
Qed.

(** X22: what the panel sends, the server accepts: with the structure loaded
    from the store, unit ids unique, a management or admin caller with a
    valid token and an existing target user, the request of the Assign
    button is answered 200, never with the 404, 400 or 500 of the assign
    validation, and the target ends up with the selected division of the
    store and a unit that lists it. *)
Theorem panel_assign_is_accepted (db : DB) (token userId selectedDiv : string)
    (decoded : Claims) (current user : User) (req : Request) :
  List.NoDup (map o_id (ous db)) ->
  token <> "" -> has_space token = false -> jwt_verify token = inr decoded ->
  getCurrentUser castLegacy db decoded = Doc current -> u_role current <> normal ->
  User_findById castLegacy db userId = Doc user ->
  AdminPanel.onAssign token (AdminPanel.loaded_structure db) userId selectedDiv = Some req ->
  let r := route_post_user_assign castLegacy jwt_verify db req in
  status (snd r) = 200 /\
  exists ou division user',
    In ou (ous db) /\ In division (o_divisions ou) /\
    oid_text (d_id division) = selectedDiv /\
    User_findById castLegacy (fst r) userId = Doc user' /\
    u_ou user' = Some (o_id ou) /\ u_division user' = Some (d_id division).
Proof.
  intros Hnd Htok Hsp Hv Hcur Hrole Huser Hsend r. subst r.
  destruct (onAssign_sent _ _ _ _ _ Hsend)
    as (Hsel & Hparam & Hhead & Hbdiv & it & di & Hit & Hdi & Hdid & Hbou).
  destruct (loaded_item_unit db it di Hit Hdi) as (ou & division & Hou & Hdiv & Eou & Ediv).
  rewrite Eou in Hbou. rewrite Ediv in Hdid. clear Hsend Hit Hdi Eou Ediv.
  subst selectedDiv.
  assert (Hfind : OU_findById castLegacy db (oid_text (o_id ou)) = Doc ou).
  { unfold OU_findById. rewrite castObjectId_text. apply of_option_Doc.
    unfold has_ou_id. now apply (find_by_unique_key o_id). }
  assert (Hown : existsb (has_division_id (d_id division)) (o_divisions ou) = true).
  { apply existsb_exists. exists division. split; [assumption|].
    unfold has_division_id. apply oid_eqb_refl. }
  destruct (find_doc_exists _ _ Hown) as (division' & Hdiv').
  assert (Hkey : d_id division' = d_id division).
  { apply find_doc_holds in Hdiv'. now apply oid_eqb_eq in Hdiv'. }
  assert (Hsub : divisions_id castLegacy ou (oid_text (d_id division)) = Some division').
  { unfold divisions_id. now rewrite castObjectId_text. }
  unfold route_post_user_assign, protected.
  rewrite (authMiddleware_bearer jwt_verify req token decoded Hhead Htok Hsp Hv).
  unfold post_user_assign. rewrite Hcur.
  destruct (role_eqb (u_role current) normal) eqn:E;
    [apply role_eqb_eq in E; contradiction|].
  rewrite Hbou, Hbdiv, !truthy_Some by apply oid_text_not_empty.
  cbn [negb orb default from_option id].
  rewrite Hfind, Hsub, Hparam, Huser.
  cbn [fst snd status]. split; [reflexivity|].
  exists ou, division', (set_assignment user (Some (o_id ou)) (Some (d_id division'))).
  split; [assumption|]. split; [eapply find_doc_In; exact Hdiv'|].
  split; [now rewrite Hkey|].
  split; [now apply (User_findById_saved castLegacy db userId user)|].
  split; reflexivity.
Qed.
End Panel.

Lemma panel_assign_is_accepted_witness :
  status (snd (route_post_user_assign Demo.legacy Demo.verify Demo.db
                 (AdminPanel.assign "bob-token" Demo.u3 Demo.ou1 Demo.d2))) = 200.
Proof.
  apply (panel_assign_is_accepted Demo.legacy Demo.verify Demo.db "bob-token" Demo.u3
           Demo.d2 Demo.bob_claims Demo.bob Demo.carol
           (AdminPanel.assign "bob-token" Demo.u3 Demo.ou1 Demo.d2)).
  - apply distinct_ids. vm_compute. reflexivity.
  - discriminate.
  - reflexivity.
  - reflexivity.
  - vm_compute. reflexivity.
  - discriminate.
  - vm_compute. reflexivity.
  - vm_compute. reflexivity.
Defined.

Lemma panel_assign_names_owning_unit_witness :
  body (AdminPanel.assign "bob-token" Demo.u3 Demo.ou1 Demo.d2) !! "divisionId"
  = Some Demo.d2 /\
  exists ou d, In ou (AdminPanel.loaded_structure Demo.db) /\
    In d (AdminPanel.divisions ou) /\ AdminPanel.divisionId d = Demo.d2 /\
    body (AdminPanel.assign "bob-token" Demo.u3 Demo.ou1 Demo.d2) !! "ouId"
    = Some (AdminPanel.ouId ou).
Proof.
  pose proof (panel_assign_names_owning_unit "bob-token"
                (AdminPanel.loaded_structure Demo.db) Demo.u3 Demo.d2) as H.
  change (AdminPanel.onAssign "bob-token" (AdminPanel.loaded_structure Demo.db) Demo.u3
            Demo.d2)
    with (Some (AdminPanel.assign "bob-token" Demo.u3 Demo.ou1 Demo.d2)) in H.
  exact (proj2 (proj2 (proj2 H))).
Defined.

(** ** The credentials view against the server *)

Lemma view_keeps_others (l : list Credential) (credId : string) (y : Credential) :
  (forall c, In c l -> oid_text (c_id c) <> credId) ->
  CredentialsView.updateCredential l credId y = l.
Proof.
  unfold CredentialsView.updateCredential.
  induction l as [|a rest IH]; cbn [map]; [reflexivity|]. intros H.
  destruct (String.eqb_spec (oid_text (c_id a)) credId) as [E|_];
    [now apply H in E; [|left]|].
  rewrite IH; [reflexivity|]. intros c Hc. apply H. now right.
Qed.

Lemma view_update_is_save (l : list Credential) (id : ObjectId) (y : Credential) :
  List.NoDup (map c_id l) ->
  CredentialsView.updateCredential l (oid_text id) y
  = save_doc (has_credential_id id) y l.
Proof.
  induction l as [|a rest IH]; [reflexivity|].
  intros Hnd. inversion Hnd as [|? ? Ha Hrest]; subst.
  change (CredentialsView.updateCredential (a :: rest) (oid_text id) y)
    with ((if String.eqb (oid_text (c_id a)) (oid_text id) then y else a)
          :: CredentialsView.updateCredential rest (oid_text id) y).
  cbn [save_doc]. unfold has_credential_id at 1. unfold oid_eqb.
  destruct (String.eqb_spec (oid_text (c_id a)) (oid_text id)) as [E|_].
  - apply oid_text_inj in E. rewrite view_keeps_others; [reflexivity|].
    intros c Hc Heq. apply oid_text_inj in Heq. apply Ha. rewrite E, <- Heq.
    now apply in_map.
  - now rewrite IH.
Qed.

Lemma ensureDivisionAccess_refusal (castLegacy : string -> option ObjectId) (db : DB)
    (c : Claims) (req : Request) (res : Response) :
  ensureDivisionAccess castLegacy db c req = Refused res ->
  status res = 401 \/ status res = 403.
Proof.
  unfold ensureDivisionAccess. intros H.
  repeat case_match; simplify_eq; cbn; auto.
Qed.

Section View.
Variable castLegacy : string -> option ObjectId.

(** X23: the credentials view stays in step with the store: when the ids of
    a division's credentials are unique, the view holds that division's
    list and the update names one of its credentials by the id text the
    view shows, replacing in the view every entry with that id by the
    credential the server answered gives exactly the list the store holds
    after the update. *)
Theorem credentials_view_follows_store (decoded : Claims) (db : DB) (req : Request)
    (current : User) (ou : OU) (division : Division) (cred : Credential) :
  getCurrentUser castLegacy db decoded = Doc current -> u_role current <> normal ->
  OU_findOne_division castLegacy db (param_id req) = Doc ou ->
  divisions_id castLegacy ou (param_id req) = Some division ->
  In cred (d_credentials division) ->
  param_credId req = oid_text (c_id cred) ->
  List.NoDup (map c_id (d_credentials division)) ->
  let r := put_division_credential castLegacy decoded db req in
  exists ou' division' answered,
    status (snd r) = 200 /\
    field "credential" (payload (snd r)) = Some (json_credential answered) /\
    OU_findOne_division castLegacy (fst r) (param_id req) = Doc ou' /\
    divisions_id castLegacy ou' (param_id req) = Some division' /\
    CredentialsView.updateCredential (d_credentials division) (param_credId req) answered
    = d_credentials division'.
Proof.
  intros Hcur Hrole Hou Hdiv Hin Hparam Hnd r. subst r.
  assert (Hcred : credentials_id castLegacy division (param_credId req) = Some cred).
  { unfold credentials_id. rewrite Hparam, castObjectId_text. unfold has_credential_id.
    now apply (find_by_unique_key c_id). }
  unfold put_division_credential. rewrite Hcur, Hou, Hdiv, Hcred.
  destruct (role_eqb (u_role current) normal) eqn:E;
    [apply role_eqb_eq in E; contradiction|].
  cbn [fst snd payload status].
  set (cred' := patch_credential cred (body req !! "system")
                  (body req !! "username") (body req !! "password")).
  set (division' := with_credential division cred').
  assert (Hdiv' : divisions_id castLegacy (with_division ou division') (param_id req)
                  = Some division').
  { now apply (divisions_id_with_division castLegacy ou _ division). }
  exists (with_division ou division'), division', cred'.
  split; [reflexivity|]. split; [reflexivity|].
  split; [eapply OU_findOne_division_saved; [exact Hou | reflexivity | exact Hdiv']|].
  split; [exact Hdiv'|].
  rewrite Hparam, (view_update_is_save _ _ _ Hnd). reflexivity.
Qed.

(** X24: the view posts a new credential only when its three fields are
    filled in, so the server never answers such a request with the 400 of
    its own required-field check; a caller allowed on an existing division
    gets 201. *)
Theorem view_add_passes_field_check (fresh : ObjectId) (decoded : Claims) (db : DB)
    (token divisionId system username password : string) :
  match CredentialsView.addCredential token divisionId system username password with
  | None => system = "" \/ username = "" \/ password = ""
  | Some req =>
      param_id req = divisionId /\
      status (snd (post_division_credentials castLegacy fresh decoded db req)) <> 400 /\
      (forall current ou,
         ensureDivisionAccess castLegacy db decoded req = Granted current ->
         OU_findOne_division castLegacy db divisionId = Doc ou ->
         status (snd (post_division_credentials castLegacy fresh decoded db req)) = 201)
  end.
Proof.
  unfold CredentialsView.addCredential.
  destruct (String.eqb_spec system "") as [-> | Hs]; [now left|].
  destruct (String.eqb_spec username "") as [-> | Hu]; [right; now left|].
  destruct (String.eqb_spec password "") as [-> | Hp]; [right; now right|].
  cbn [orb param_id]. split; [reflexivity|].
  unfold post_division_credentials. cbn [body param_id].
  rewrite lookup_insert_eq.
  rewrite (lookup_insert_ne _ "system" "username"), lookup_insert_eq by discriminate.
  rewrite !(lookup_insert_ne _ _ "password"), lookup_insert_eq by discriminate.
  rewrite !truthy_Some by assumption. cbn [negb orb]. split.
  - destruct (ensureDivisionAccess castLegacy db decoded _) as [|res|current] eqn:Hacc.
    + cbn. discriminate.
    + apply ensureDivisionAccess_refusal in Hacc as [Hst | Hst];
        cbn [snd]; rewrite Hst; discriminate.
    + repeat case_match; simpl; discriminate.
  - intros current ou -> Hou. rewrite Hou.
    destruct (owner_has_division _ _ _ _ Hou) as (d & ->). reflexivity.
Qed.
End View.

Lemma credentials_view_follows_store_witness :
  exists ou' division' answered,
    status (snd (put_division_credential Demo.legacy Demo.bob_claims Demo.db
                   (Demo.request "" Demo.d1 Demo.c1 [("password", "n3w")]))) = 200 /\
    field "credential"
      (payload (snd (put_division_credential Demo.legacy Demo.bob_claims Demo.db
                       (Demo.request "" Demo.d1 Demo.c1 [("password", "n3w")]))))
    = Some (json_credential answered) /\
    OU_findOne_division Demo.legacy
      (fst (put_division_credential Demo.legacy Demo.bob_claims Demo.db
              (Demo.request "" Demo.d1 Demo.c1 [("password", "n3w")]))) Demo.d1
    = Doc ou' /\
    divisions_id Demo.legacy ou' Demo.d1 = Some division' /\
    CredentialsView.updateCredential [Demo.wiki; Demo.mail] Demo.c1 answered
    = d_credentials division'.
Proof.
  apply (credentials_view_follows_store Demo.legacy Demo.bob_claims Demo.db
           (Demo.request "" Demo.d1 Demo.c1 [("password", "n3w")])
           Demo.bob Demo.news Demo.it_division Demo.wiki).
  - vm_compute. reflexivity.
  - discriminate.
  - vm_compute. reflexivity.
  - vm_compute. reflexivity.
  - left. reflexivity.
  - vm_compute. reflexivity.
  - apply distinct_ids. vm_compute. reflexivity.
Defined.

Lemma view_add_passes_field_check_witness :
  status (snd (post_division_credentials Demo.legacy (Demo.oid Demo.c9) Demo.alice_claims
                 Demo.db
                 (mkRequest {[ "authorization" := "Bearer alice-token" ]} Demo.d1 ""
                    (<["system" := "crm"]> (<["username" := "ops"]>
                       (<["password" := "pw"]> ∅)))))) = 201.
Proof.
  pose proof (view_add_passes_field_check Demo.legacy (Demo.oid Demo.c9)
                Demo.alice_claims Demo.db "alice-token" Demo.d1 "crm" "ops" "pw") as H.
  cbn [CredentialsView.addCredential String.eqb Ascii.eqb Bool.eqb orb] in H.
  apply (proj2 (proj2 H) Demo.alice Demo.news); vm_compute; reflexivity.
Defined.

(** ** The panel's division index *)

Section Index.
Import AdminPanel.

Lemma fill_lookup ou ds m id e :
  index_divisions ou ds m !! id = Some e ->
  m !! id = Some e \/ exists d, In d ds /\ divisionId d = id /\ e = index_entry ou d.
Proof.
  revert m. induction ds as [|d rest IH]; intros m; cbn [index_divisions fold_left];
    [now left|].
  intros H. apply IH in H as [H | (d' & Hd' & Hid & He)].
  - destruct (decide (divisionId d = id)) as [<- | Hne].
    + rewrite lookup_insert_eq in H. injection H as <-. right. exists d.
      split; [now left|]. split; reflexivity.
    + rewrite lookup_insert_ne in H by exact Hne. now left.
  - right. exists d'. split; [now right|]. split; assumption.
Qed.

Lemma fill_keeps ou ds m id : is_Some (m !! id) -> is_Some (index_divisions ou ds m !! id).
Proof.
  revert m. induction ds as [|d rest IH]; intros m; cbn [index_divisions fold_left];
    [trivial|].
  intros H. apply IH. destruct (decide (divisionId d = id)) as [<- | Hne].
  - rewrite lookup_insert_eq. eauto.
  - now rewrite lookup_insert_ne.
Qed.

Lemma fill_adds ou ds m d : In d ds -> is_Some (index_divisions ou ds m !! divisionId d).
Proof.
  revert m. induction ds as [|d' rest IH]; intros m; cbn [index_divisions fold_left];
    [intros []|].
  intros [-> | Hin]; [|now apply IH].
  apply (fill_keeps ou). rewrite lookup_insert_eq. eauto.
Qed.

Lemma index_from (structure : list StructureItem) (m : gmap string IndexEntry) :
  let index := fold_left (fun m ou => index_divisions ou (divisions ou) m) structure m in
  (forall id e, index !! id = Some e ->
     m !! id = Some e \/
     exists ou d, In ou structure /\ In d (divisions ou) /\ divisionId d = id /\
       e = index_entry ou d) /\
  (forall id, is_Some (m !! id) -> is_Some (index !! id)) /\
  (forall ou d, In ou structure -> In d (divisions ou) ->
     is_Some (index !! divisionId d)).
Proof.
  revert m. induction structure as [|ou rest IH]; intros m; cbn [fold_left].
  - split; [intros id e H; now left|]. split; [trivial|]. intros ou d [].
  - destruct (IH (index_divisions ou (divisions ou) m)) as (Hsound & Hkeep & Hadd).
    split; [|split].
    + intros id e H. apply Hsound in H as [H | (ou' & d & Hou & Hd & Hid & He)].
      * apply fill_lookup in H as [H | (d & Hd & Hid & He)]; [now left|].
        right. exists ou, d. split; [now left|]. repeat split; assumption.
      * right. exists ou', d. split; [now right|]. repeat split; assumption.
    + intros id H. apply Hkeep. now apply (fill_keeps ou).
    + intros ou' d [<- | Hin] Hd; [|now apply (Hadd ou' d)].
      apply Hkeep. now apply (fill_adds ou).
Qed.

(** X25: the panel's division index has an entry for every division of the
    loaded structure and for nothing else, and each entry names a unit
    that lists the division, with that unit's name and the division's
    name. *)
Theorem division_index_matches_structure (structure : list StructureItem) :
  (forall id e, divisionIndex structure !! id = Some e ->
     exists ou d, In ou structure /\ In d (divisions ou) /\ divisionId d = id /\
       e = index_entry ou d) /\
  (forall ou d, In ou structure -> In d (divisions ou) ->
     is_Some (divisionIndex structure !! divisionId d)).
Proof.
  destruct (index_from structure ∅) as (Hsound & _ & Hadd). split.
  - intros id e H. apply Hsound in H as [H | H]; [|exact H].
    rewrite lookup_empty in H. discriminate.
  - exact Hadd.
Qed.
End Index.

Lemma division_index_matches_structure_witness :
  is_Some (AdminPanel.divisionIndex (AdminPanel.loaded_structure Demo.db) !! Demo.d2).
Proof.
  apply (proj2 (division_index_matches_structure (AdminPanel.loaded_structure Demo.db))
           (AdminPanel.mkStructureItem Demo.ou1 "News Management"
              [AdminPanel.mkDivisionItem Demo.d1 "IT Division";
               AdminPanel.mkDivisionItem Demo.d2 "Finance Division"])
           (AdminPanel.mkDivisionItem Demo.d2 "Finance Division")).
  - left. reflexivity.
  - right. left. reflexivity.
Defined.
